(** * Trie-based book recommender: a shallow embedding of [code.py]

    The development follows the three classes of the program
    ([TrieNode], [Trie], [TrieBasedRecommender]) and the script around
    them: the check on the columns of the data frame, the options of
    the select boxes, the choice between [recommend_books] and the whole
    frame, and the grid view.

    Conventions of the embedding.
    - Text is [string]; a character is a code point below 256 (Rocq's
      [ascii]).  On that range Python's [str.lower] is a map over the
      characters and [str.split()]/[str.strip()] use the white space
      characters listed in [Py.isspace].
    - A Python [dict] keeps its keys in insertion order and
      [dict.values()] iterates in that order, so the children of a node
      are an association list: a new key goes to the end, an existing key
      keeps its place.
    - [average_rating] is a rational number: comparisons of finite
      numbers (ints or floats that are not NaN) are exact comparisons of
      the values they denote.
    - The frame comes from [pd.read_csv] with its default index, so the
      index label delivered by [iterrows] is the position of the row.
    - [iloc] raises [IndexError] out of range: it returns [option].
    - [_collect_indices] is the only recursive function of the program.
      [_collect_indices] and [search] give the list that the call
      returns when it returns; [_collect_indices_within] adds the limit
      that the interpreter puts on nested calls, beyond which the call
      raises [RecursionError]. *)

From Stdlib Require Import List String Ascii Bool Arith Lia.
From Stdlib Require Import QArith Permutation Sorted.
Import ListNotations.

Open Scope string_scope.
Open Scope list_scope.
Open Scope nat_scope.

(** ** The built-in string methods the program calls *)

Module Py.

(** [c.isspace()] for a code point below 256: TAB..CR, FS..US, SPACE,
    NEL (0x85) and NBSP (0xA0). *)
Definition isspace (c : ascii) : bool :=
  let n := nat_of_ascii c in
  ((9 <=? n) && (n <=? 13)) || ((28 <=? n) && (n <=? 32))
  || (n =? 133) || (n =? 160).

(** Upper-case letters of the ASCII range, ['A'..'Z']. *)
Definition is_ascii_upper (c : ascii) : bool :=
  let n := nat_of_ascii c in (65 <=? n) && (n <=? 90).

(** Lower-casing one code point below 256: ['A'..'Z'] and the Latin-1
    capitals 0xC0..0xDE (except the multiplication sign 0xD7) move up by
    32; every other code point is unchanged. *)
Definition lower_char (c : ascii) : ascii :=
  let n := nat_of_ascii c in
  if ((65 <=? n) && (n <=? 90))
     || ((192 <=? n) && (n <=? 222) && negb (n =? 215))
  then ascii_of_nat (n + 32) else c.

(** [s.lower()] *)
Fixpoint lower (s : string) : string :=
  match s with
  | EmptyString => EmptyString
  | String c s' => String (lower_char c) (lower s')
  end.

(** [s.split()] with no separator: runs of white space separate the
    words, and no empty word is produced.  [cur] is the word being
    read. *)
Fixpoint split_from (cur : string) (s : string) : list string :=
  match s with
  | EmptyString => if (String.length cur =? 0) then [] else [cur]
  | String c s' =>
      if isspace c
      then (if (String.length cur =? 0) then split_from "" s'
            else cur :: split_from "" s')
      else split_from (cur ++ String c "") s'
  end.

Definition split (s : string) : list string := split_from "" s.

(** [s.lstrip()], [s.rstrip()] and [s.strip()]. *)
Fixpoint lstrip (s : string) : string :=
  match s with
  | EmptyString => EmptyString
  | String c s' => if isspace c then lstrip s' else s
  end.

Fixpoint rstrip (s : string) : string :=
  match s with
  | EmptyString => EmptyString
  | String c s' =>
      match rstrip s' with
      | EmptyString => if isspace c then EmptyString else String c EmptyString
      | r => String c r
      end
  end.

Definition strip (s : string) : string := rstrip (lstrip s).

(** Truth value of a string: [not s] holds exactly for the empty one. *)
Definition truthy (s : string) : bool :=
  match s with EmptyString => false | String _ _ => true end.

(** [l.sort(key=key, reverse=True)].  Python's sort is stable, also
    with [reverse=True]: the result is in non-increasing key order and
    elements with equal keys keep the order they had.  A stable sort has
    one possible result, which this insertion sort computes: an element
    is put in front of the first later element whose key is not
    greater. *)
Section Sort.
Context {A : Type} (key : A -> Q).

Fixpoint sort_insert (x : A) (l : list A) : list A :=
  match l with
  | [] => [x]
  | y :: l' =>
      if Qle_bool (key y) (key x) then x :: y :: l'
      else y :: sort_insert x l'
  end.

Definition sort_reverse (l : list A) : list A :=
  fold_right sort_insert [] l.
End Sort.

(** The characters of a string, for stating properties of its text. *)
Fixpoint chars (s : string) : list ascii :=
  match s with
  | EmptyString => []
  | String c s' => c :: chars s'
  end.

End Py.

(** ** class TrieNode *)

#[local] Set Warnings "-register-all".

Inductive TrieNode : Type :=
  mkTrieNode (children : list (ascii * TrieNode))
             (is_end : bool)
             (book_indices : list nat).

Definition children (node : TrieNode) : list (ascii * TrieNode) :=
  match node with mkTrieNode c _ _ => c end.

Definition is_end (node : TrieNode) : bool :=
  match node with mkTrieNode _ e _ => e end.

Definition book_indices (node : TrieNode) : list nat :=
  match node with mkTrieNode _ _ b => b end.

(** [TrieNode()]: no children, not terminal, no indices. *)
Definition TrieNode_init : TrieNode := mkTrieNode [] false [].

(** *** The dictionary of children *)

(** [d.get(char)]: the child stored under [char], if any. *)
Fixpoint dict_get (char : ascii) (d : list (ascii * TrieNode))
  : option TrieNode :=
  match d with
  | [] => None
  | (k, v) :: d' => if Ascii.eqb k char then Some v else dict_get char d'
  end.

(** [d[char] = v]: an existing key keeps its position, a new key is
    appended. *)
Fixpoint dict_set (char : ascii) (v : TrieNode)
  (d : list (ascii * TrieNode)) : list (ascii * TrieNode) :=
  match d with
  | [] => [(char, v)]
  | (k, w) :: d' =>
      if Ascii.eqb k char then (k, v) :: d'
      else (k, w) :: dict_set char v d'
  end.

(** The node the loop of [insert] moves to: the child under [char],
    created empty when [char] is not yet a key. *)
Definition child_or_new (char : ascii) (d : list (ascii * TrieNode))
  : TrieNode :=
  match dict_get char d with
  | None => TrieNode_init
  | Some ch => ch
  end.

(** ** class Trie *)

Record Trie : Type := mkTrie { root : TrieNode }.

Definition Trie_init : Trie := mkTrie TrieNode_init.

(** The loop of [Trie.insert] from the node it has reached: the child
    under the next character is created when absent, the rest of the
    word is inserted below it, and at the end of the word the node is
    marked and the index appended.  The program updates the nodes in
    place; every node has one owner, so the update is a rebuilt path. *)
Fixpoint insert_from (word : string) (index : nat) (node : TrieNode)
  : TrieNode :=
  match word with
  | EmptyString =>
      mkTrieNode (children node) true (book_indices node ++ [index])
  | String char rest =>
      let child := child_or_new char (children node) in
      mkTrieNode (dict_set char (insert_from rest index child) (children node))
                 (is_end node) (book_indices node)
  end.

Definition insert (self : Trie) (word : string) (index : nat) : Trie :=
  mkTrie (insert_from word index (root self)).

(** [Trie._collect_indices] *)
Fixpoint _collect_indices (node : TrieNode) : list nat :=
  match node with
  | mkTrieNode ch e idxs =>
      (if e then idxs else [])
      ++ flat_map (fun kv => _collect_indices (snd kv)) ch
  end.

(** The loop of [Trie.search]: [None] is the early [return []]. *)
Fixpoint walk (prefix : string) (node : TrieNode) : option TrieNode :=
  match prefix with
  | EmptyString => Some node
  | String char rest =>
      match dict_get char (children node) with
      | None => None
      | Some ch => walk rest ch
      end
  end.

Definition search (self : Trie) (prefix : string) : list nat :=
  match walk prefix (root self) with
  | None => []
  | Some node => _collect_indices node
  end.

(** ** The data frame *)

(** One row of the frame: the four columns the program reads, and the
    other columns, which pass through untouched. *)
Record book : Type := mkBook {
  title : string;
  authors : string;
  genre : string;
  average_rating : Q;
  others : list (string * string)
}.

Record DataFrame : Type := mkDataFrame {
  columns : list string;
  rows : list book
}.

(** [len(df)], [df.iloc[idx]] and [df.iterrows()]. *)
Definition len (df : DataFrame) : nat := List.length (rows df).

Definition iloc (df : DataFrame) (idx : nat) : option book :=
  nth_error (rows df) idx.

Definition iterrows (df : DataFrame) : list (nat * book) :=
  combine (seq 0 (len df)) (rows df).

(** ** class TrieBasedRecommender *)

Record TrieBasedRecommender : Type := mkRecommender {
  books_df : DataFrame;
  trie : Trie
}.

(** [f"{book['title']} {book['authors']} {book['genre']}"] *)
Definition searchable_text (b : book) : string :=
  title b ++ " " ++ authors b ++ " " ++ genre b.

(** [searchable_text.lower().split()] *)
Definition words (b : book) : list string :=
  Py.split (Py.lower (searchable_text b)).

(** The inner loop of [__init__]: every word of one row. *)
Definition index_book (t : Trie) (row : nat * book) : Trie :=
  fold_left (fun t word => insert t word (fst row)) (words (snd row)) t.

Definition TrieBasedRecommender_init (df : DataFrame)
  : TrieBasedRecommender :=
  mkRecommender df (fold_left index_book (iterrows df) Trie_init).

(** First statement of [recommend_books]: the candidate indices. *)
Definition recommended_indices (self : TrieBasedRecommender)
  (search_query : string) : list nat :=
  if negb (Py.truthy (Py.strip search_query))
  then seq 0 (len (books_df self))
  else search (trie self) (Py.lower search_query).

(** The condition of the list comprehension, on the row [iloc] found. *)
Definition passes (author genre_ : string) (min_rating : Q) (b : book)
  : bool :=
  (String.eqb author "All" || String.eqb (authors b) author)
  && (String.eqb genre_ "All" || String.eqb (genre b) genre_)
  && Qle_bool min_rating (average_rating b).

(** The list comprehension: the candidates are visited in order, every
    one is looked up with [iloc] ([None] is the [IndexError]), and the
    row is emitted when the condition holds.  Whatever the filters are,
    the condition reads a field of [iloc[idx]] before it can hold or
    fail (the rating when both filters are "All"), so an index out of
    range raises in every case. *)
Fixpoint recommended (df : DataFrame) (indices : list nat)
  (author genre_ : string) (min_rating : Q) : option (list book) :=
  match indices with
  | [] => Some []
  | idx :: rest =>
      match iloc df idx with
      | None => None
      | Some b =>
          match recommended df rest author genre_ min_rating with
          | None => None
          | Some out =>
              Some (if passes author genre_ min_rating b
                    then b :: out else out)
          end
      end
  end.

Definition recommend_books (self : TrieBasedRecommender)
  (search_query author genre_ : string) (min_rating : Q)
  : option (list book) :=
  option_map (Py.sort_reverse average_rating)
    (recommended (books_df self) (recommended_indices self search_query)
       author genre_ min_rating).

(** ** The check on the columns, before the recommender is built *)

Definition required_columns : list string :=
  ["title"; "authors"; "genre"; "average_rating"].

(** [required.issubset(cols)] *)
Definition issubset (required cols : list string) : bool :=
  forallb (fun c => existsb (String.eqb c) cols) required.

(** What the script does with the frame: [st.error] shows a message
    (its fixed text and the set of names printed after it) and
    [st.stop] ends the run; otherwise the recommender is constructed. *)
Inductive action : Type :=
| st_error (text : string) (named : list string)
| st_stop
| construct (recommender : TrieBasedRecommender).

Definition startup (df : DataFrame) : list action :=
  if negb (issubset required_columns (columns df))
  then [st_error "The CSV file must contain the following columns: "
                 required_columns;
        st_stop]
  else [construct (TrieBasedRecommender_init df)].

(** ** Auxiliary notions used in the statements *)

(** The scenario of the specification, used to run the definitions. *)
Definition catalogue : DataFrame :=
  mkDataFrame ["title"; "authors"; "genre"; "average_rating"]
    [ mkBook "Dune" "Herbert" "Sci-Fi" (42 # 10) [];
      mkBook "Dune Messiah" "Herbert" "Sci-Fi" (38 # 10) [];
      mkBook "Emma" "Austen" "Romance" (45 # 10) [] ].

(** A frame in which one row has several words with a common prefix,
    and two rows have the same rating. *)
Definition shelf : DataFrame :=
  mkDataFrame ["title"; "authors"; "genre"; "average_rating"; "image_url"]
    [ mkBook "The Time Machine" "H. G. Wells" "Time Travel" (4 # 1)
        [("image_url", "time.png")];
      mkBook "Dracula" "Bram Stoker" "Horror" (4 # 1)
        [("image_url", "dracula.png")];
      mkBook "Dune" "Frank Herbert" "Sci-Fi" (4 # 1)
        [("image_url", "dune.png")] ].

Definition time_machine : book :=
  mkBook "The Time Machine" "H. G. Wells" "Time Travel" (4 # 1)
    [("image_url", "time.png")].

(** A frame without the columns [genre] and [average_rating]. *)
Definition headless : DataFrame :=
  mkDataFrame ["title"; "authors"; "year"] [].

(** A node keeps indices only where it is marked as the end of a word:
    the state of every node the program can build. *)
Fixpoint marked (node : TrieNode) : bool :=
  match node with
  | mkTrieNode ch e idxs =>
      (e || (List.length idxs =? 0))
      && forallb (fun kv => marked (snd kv)) ch
  end.

(** The (word, index) insertions of [__init__], in program order. *)
Definition insertions_of (row : nat * book) : list (string * nat) :=
  map (fun word => (word, fst row)) (words (snd row)).

Definition insertions (df : DataFrame) : list (string * nat) :=
  flat_map insertions_of (iterrows df).

(** A trie built by a sequence of insertions into the empty trie. *)
Definition insert_all (t : Trie) (ps : list (string * nat)) : Trie :=
  fold_left (fun t p => insert t (fst p) (snd p)) ps t.

(** The indices inserted under a word that starts with [prefix], in
    insertion order. *)
Definition matching (prefix : string) (ps : list (string * nat))
  : list nat :=
  map snd (filter (fun p => String.prefix prefix (fst p)) ps).

(** Number of nodes below and including [node]: the number of calls of
    [_collect_indices] that a call on [node] makes. *)
Fixpoint nodes (node : TrieNode) : nat :=
  match node with
  | mkTrieNode ch _ _ =>
      S (list_sum (map (fun kv => nodes (snd kv)) ch))
  end.

(** Number of words of a row that start with [prefix]. *)
Definition occurrences (prefix : string) (b : book) : nat :=
  List.length (filter (String.prefix prefix) (words b)).

(** Size of the index: the number of inserted words and the number of
    their characters. *)
Definition token_count (df : DataFrame) : nat :=
  List.length (insertions df).

Definition token_chars (df : DataFrame) : nat :=
  list_sum (map (fun p => String.length (fst p)) (insertions df)).

(** The rows a list of indices denotes; [None] when [iloc] raises. *)
Fixpoint resolve (df : DataFrame) (indices : list nat)
  : option (list book) :=
  match indices with
  | [] => Some []
  | idx :: rest =>
      match iloc df idx, resolve df rest with
      | Some b, Some out => Some (b :: out)
      | _, _ => None
      end
  end.

(** Order of a list sorted by key, largest first. *)
Definition non_increasing {A : Type} (key : A -> Q) (a b : A) : Prop :=
  (key b <= key a)%Q.

(** Elements whose key equals [r], in their order in the list. *)
Definition with_key {A : Type} (key : A -> Q) (r : Q) (l : list A)
  : list A :=
  filter (fun a => Qeq_bool (key a) r) l.

(** Columns of [required_columns] that the frame lacks. *)
Definition missing (df : DataFrame) (c : string) : Prop :=
  In c required_columns /\ ~ In c (columns df).

(** Equality of rows is decidable. *)
Definition book_eq_dec (x y : book) : {x = y} + {x <> y}.
Proof.
  repeat decide equality; apply Ascii.ascii_dec || idtac.
Defined.

(** The rating and the filter condition of the row behind an index,
    for following indices through the filter and the sort. *)
Definition rating_at (df : DataFrame) (idx : nat) : Q :=
  match iloc df idx with Some b => average_rating b | None => 0%Q end.

Definition passes_at (df : DataFrame) (author genre_ : string)
  (min_rating : Q) (idx : nat) : bool :=
  match iloc df idx with
  | Some b => passes author genre_ min_rating b
  | None => false
  end.

(** ** The script around the recommender *)

(** [sorted(l)] on strings: ascending in the order of the code points,
    stable.  Computed as for [Py.sort_reverse], by insertion. *)
Fixpoint sorted_insert (x : string) (l : list string) : list string :=
  match l with
  | [] => [x]
  | y :: l' =>
      if String.leb x y then x :: y :: l' else y :: sorted_insert x l'
  end.

Definition sorted (l : list string) : list string :=
  fold_right sorted_insert [] l.

(** [series.unique().tolist()]: the distinct values, in the order of
    their first appearance. *)
Fixpoint unique (l : list string) : list string :=
  match l with
  | [] => []
  | x :: l' => x :: filter (fun y => negb (String.eqb x y)) (unique l')
  end.

(** The options of the two select boxes:
    [["All"] + sorted(books_df[column].unique().tolist())]. *)
Definition options (column : book -> string) (df : DataFrame)
  : list string :=
  "All" :: sorted (unique (map column (rows df))).

Definition author_options : DataFrame -> list string := options authors.
Definition genre_options : DataFrame -> list string := options genre.

(** The reset logic and the choice between [recommend_books] and the
    whole frame ([books_df.to_dict(orient='records')]).  [apply] and
    [reset] are the two buttons, the other arguments the values of the
    widgets; the rating of the slider is an integer. *)
Definition get_recommendations (recommender : TrieBasedRecommender)
  (apply reset : bool) (search_query selected_author selected_genre : string)
  (selected_rating : Z) : option (list book) :=
  let search_query := if reset then "" else search_query in
  let selected_author := if reset then "All" else selected_author in
  let selected_genre := if reset then "All" else selected_genre in
  let selected_rating := if reset then 1%Z else selected_rating in
  if apply
     || Py.truthy search_query
     || negb (String.eqb selected_author "All")
     || negb (String.eqb selected_genre "All")
     || (1 <? selected_rating)%Z
  then recommend_books recommender search_query selected_author
         selected_genre (inject_Z selected_rating)
  else Some (rows (books_df recommender)).

(** The grid view: [enumerate] numbers the books, and the book with
    number [idx] is drawn in column [idx % 3]. *)
Definition enumerate {A : Type} (l : list A) : list (nat * A) :=
  combine (seq 0 (List.length l)) l.

Definition grid_cells (recommended_books : list book)
  : list (nat * book) :=
  map (fun p => (fst p mod 3, snd p)) (enumerate recommended_books).

(** What column [c] of the grid shows, from top to bottom. *)
Definition grid_column (c : nat) (recommended_books : list book)
  : list book :=
  map snd (filter (fun p => fst p =? c) (grid_cells recommended_books)).

(** Depth of the recursion of [_collect_indices] on [node]: the number
    of nested calls, one per level of the tree below and including
    [node]. *)
Fixpoint depth (node : TrieNode) : nat :=
  match node with
  | mkTrieNode ch _ _ =>
      S (list_max (map (fun kv => depth (snd kv)) ch))
  end.

(** Frames that lack exactly one required column. *)
Definition no_genre : DataFrame :=
  mkDataFrame ["title"; "authors"; "average_rating"] [].

Definition no_title : DataFrame :=
  mkDataFrame ["authors"; "genre"; "average_rating"] [].

(** ** The limit on nested calls *)

(** How a call ends: it returns, or it raises one of the two errors
    that the recommender can meet. *)
Inductive outcome (A : Type) : Type :=
| Returned (a : A)
| IndexError
| RecursionError.

Arguments Returned {A} a.
Arguments IndexError {A}.
Arguments RecursionError {A}.

(** The loop over [node.children.values()] of [_collect_indices]:
    [indices] is extended by what [collect] returns for each child, and
    an error in a child ends the loop. *)
Fixpoint extend_all (collect : TrieNode -> option (list nat))
  (ch : list (ascii * TrieNode)) (indices : list nat)
  : option (list nat) :=
  match ch with
  | [] => Some indices
  | kv :: ch' =>
      match collect (snd kv) with
      | None => None
      | Some l => extend_all collect ch' (indices ++ l)
      end
  end.

(** [_collect_indices] when the interpreter allows [limit] more nested
    calls: with none left the call raises [RecursionError] ([None]);
    otherwise it runs its body, and the calls on the children have one
    less. *)
Fixpoint _collect_indices_within (limit : nat) (node : TrieNode)
  : option (list nat) :=
  match limit with
  | 0 => None
  | S limit' =>
      match node with
      | mkTrieNode ch e idxs =>
          extend_all (_collect_indices_within limit') ch
            (if e then idxs else [])
      end
  end.

(** [Trie.search] under the limit: the walk is a loop and uses none. *)
Definition search_within (limit : nat) (self : Trie) (prefix : string)
  : option (list nat) :=
  match walk prefix (root self) with
  | None => Some []
  | Some node => _collect_indices_within limit node
  end.

(** [recommend_books] under the limit, with both errors. *)
Definition recommend_books_within (limit : nat)
  (self : TrieBasedRecommender)
  (search_query author genre_ : string) (min_rating : Q)
  : outcome (list book) :=
  match
    (if negb (Py.truthy (Py.strip search_query))
     then Some (seq 0 (len (books_df self)))
     else search_within limit (trie self) (Py.lower search_query))
  with
  | None => RecursionError
  | Some indices =>
      match recommended (books_df self) indices author genre_ min_rating with
      | None => IndexError
      | Some out => Returned (Py.sort_reverse average_rating out)
      end
  end.

(** The dispatch of the script under the limit. *)
Definition get_recommendations_within (limit : nat)
  (recommender : TrieBasedRecommender)
  (apply reset : bool) (search_query selected_author selected_genre : string)
  (selected_rating : Z) : outcome (list book) :=
  let search_query := if reset then "" else search_query in
  let selected_author := if reset then "All" else selected_author in
  let selected_genre := if reset then "All" else selected_genre in
  let selected_rating := if reset then 1%Z else selected_rating in
  if apply
     || Py.truthy search_query
     || negb (String.eqb selected_author "All")
     || negb (String.eqb selected_genre "All")
     || (1 <? selected_rating)%Z
  then recommend_books_within limit recommender search_query
         selected_author selected_genre (inject_Z selected_rating)
  else Returned (rows (books_df recommender)).

(** Length of the longest word that [__init__] inserts. *)
Definition longest_word (df : DataFrame) : nat :=
  list_max (map (fun p => String.length (fst p)) (insertions df)).

(** A frame with one row whose title is a word of 1200 letters. *)
Definition long_word : string :=
  string_of_list_ascii (repeat "a"%char 1200).

Definition long_frame : DataFrame :=
  mkDataFrame ["title"; "authors"; "genre"; "average_rating"]
    [ mkBook long_word "x" "y" (4 # 1) [] ].

(** ** Cells of a text column *)

(** A cell of a column of text read by [read_csv]: its text, or NaN
    when the cell of the file is empty. *)
Inductive cell : Type :=
| text (s : string)
| nan.

Definition is_nan (c : cell) : bool :=
  match c with nan => true | text _ => false end.

Definition cell_eqb (c1 c2 : cell) : bool :=
  match c1, c2 with
  | text s1, text s2 => String.eqb s1 s2
  | nan, nan => true
  | _, _ => false
  end.

(** [series.unique().tolist()] on cells; NaN is one value. *)
Fixpoint unique_cells (l : list cell) : list cell :=
  match l with
  | [] => []
  | x :: l' => x :: filter (fun y => negb (cell_eqb x y)) (unique_cells l')
  end.

(** The texts of a list of cells, when all of them are text. *)
Fixpoint texts (l : list cell) : option (list string) :=
  match l with
  | [] => Some []
  | text s :: l' => option_map (cons s) (texts l')
  | nan :: _ => None
  end.

(** [sorted(l)] on cells.  A list of texts is sorted as [sorted] does.
    Comparing a float with a text raises [TypeError] ([None]), and
    sorting two or more values compares every one of them with another,
    so a list that holds NaN beside a text fails; a list that holds
    only NaN is left as it is (no NaN is less than another). *)
Definition sorted_cells (l : list cell) : option (list cell) :=
  match texts l with
  | Some ss => Some (map text (sorted ss))
  | None => if forallb is_nan l then Some l else None
  end.

(** [["All"] + sorted(series.unique().tolist())] *)
Definition select_options (series : list cell) : option (list cell) :=
  option_map (cons (text "All")) (sorted_cells (unique_cells series)).

(** The shape of every trie the program can build: in each node the
    keys of the dictionary are distinct, the node is marked as the end
    of a word exactly when it holds indices, and below every child
    there is an index to collect (a branch is only created by the
    insertion of a word that ends in it or below it). *)
Inductive well_formed : TrieNode -> Prop :=
| well_formed_node ch e idxs :
    NoDup (map fst ch) ->
    (e = true <-> idxs <> []) ->
    (forall k child, In (k, child) ch ->
                     well_formed child /\ _collect_indices child <> []) ->
    well_formed (mkTrieNode ch e idxs).

(** ** Lemmas on the dictionary of children *)

Section Dict.
Variable char : ascii.
Variable v : TrieNode.

Lemma dict_get_set_same d : dict_get char (dict_set char v d) = Some v.
Proof.
  induction d as [|[k w] d IH]; simpl.
  - now rewrite Ascii.eqb_refl.
  - destruct (Ascii.eqb k char) eqn:E; simpl; rewrite E; auto.
Qed.

Lemma dict_get_set_other c d :
  c <> char -> dict_get c (dict_set char v d) = dict_get c d.
Proof.
  intros Hne. induction d as [|[k w] d IH]; simpl.
  - destruct (Ascii.eqb char c) eqn:E; auto.
    apply Ascii.eqb_eq in E. congruence.
  - destruct (Ascii.eqb k char) eqn:E; simpl.
    + apply Ascii.eqb_eq in E. subst k.
      destruct (Ascii.eqb char c) eqn:E'; auto.
      apply Ascii.eqb_eq in E'. congruence.
    + now rewrite IH.
Qed.

Lemma forallb_dict_set (f : ascii * TrieNode -> bool) d :
  (forall k, f (k, v) = true) -> forallb f d = true ->
  forallb f (dict_set char v d) = true.
Proof.
  intros Hv. induction d as [|[k w] d IH]; simpl; intros H.
  - now rewrite Hv.
  - apply andb_true_iff in H as [H1 H2].
    destruct (Ascii.eqb k char); simpl.
    + now rewrite Hv.
    + now rewrite H1, IH.
Qed.

(** Replacing the child under [char] changes the concatenation of a
    per-child list exactly by what the child's list gained. *)
Lemma flat_map_dict_set (g : TrieNode -> list nat) extra d :
  g TrieNode_init = [] ->
  Permutation (g v) (extra ++ g (child_or_new char d)) ->
  Permutation (flat_map (fun kv => g (snd kv)) (dict_set char v d))
              (extra ++ flat_map (fun kv => g (snd kv)) d).
Proof.
  intros Hinit. unfold child_or_new.
  induction d as [|[k w] d IH]; simpl; intros H.
  - rewrite Hinit in H. rewrite !app_nil_r in *. exact H.
  - destruct (Ascii.eqb k char) eqn:E; simpl.
    + rewrite app_assoc. now apply Permutation_app_tail.
    + rewrite (IH H). apply Permutation_app_swap_app.
Qed.

Lemma list_sum_dict_set (g : TrieNode -> nat) d :
  list_sum (map (fun kv => g (snd kv)) (dict_set char v d))
  + g (child_or_new char d)
  = list_sum (map (fun kv => g (snd kv)) d) + g v
    + match dict_get char d with Some _ => 0 | None => g TrieNode_init end.
Proof.
  unfold child_or_new.
  induction d as [|[k w] d IH]; simpl.
  - lia.
  - destruct (Ascii.eqb k char) eqn:E; simpl; lia.
Qed.
End Dict.

Lemma marked_child_or_new char d :
  forallb (fun kv => marked (snd kv)) d = true ->
  marked (child_or_new char d) = true.
Proof.
  unfold child_or_new.
  induction d as [|[k w] d IH]; simpl; intros H; auto.
  apply andb_true_iff in H as [H1 H2].
  destruct (Ascii.eqb k char); auto.
Qed.

(** ** Lemmas on insertion and search *)

Lemma search_cons node char rest :
  search (mkTrie node) (String char rest)
  = match dict_get char (children node) with
    | None => []
    | Some ch => search (mkTrie ch) rest
    end.
Proof.
  unfold search; simpl. now destruct (dict_get char (children node)).
Qed.

Lemma search_new_node prefix : search (mkTrie TrieNode_init) prefix = [].
Proof. now destruct prefix. Qed.

Lemma marked_insert_from word index :
  forall node, marked node = true ->
               marked (insert_from word index node) = true.
Proof.
  induction word as [|c w IH]; intros [ch e idxs] H; simpl in *.
  - apply andb_true_iff in H as [_ H]. exact H.
  - apply andb_true_iff in H as [H1 H2]. rewrite H1; simpl.
    apply forallb_dict_set; auto.
    intros k. simpl. apply IH. now apply marked_child_or_new.
Qed.

(** One insertion adds its index once to what the node collects. *)
Lemma collect_insert_from word index :
  forall node, marked node = true ->
    Permutation (_collect_indices (insert_from word index node))
                (index :: _collect_indices node).
Proof.
  induction word as [|c w IH]; intros [ch e idxs] H; simpl in *.
  - apply andb_true_iff in H as [H _].
    destruct e; simpl in *.
    + rewrite <- app_assoc. simpl.
      symmetry. apply Permutation_middle.
    + destruct idxs; [reflexivity | discriminate].
  - apply andb_true_iff in H as [_ H].
    rewrite Permutation_middle. apply Permutation_app_head.
    apply (flat_map_dict_set c _ _collect_indices [index]); [reflexivity|].
    apply IH. now apply marked_child_or_new.
Qed.

(** One insertion adds its index to the result of [search] exactly
    for the prefixes of the inserted word. *)
Lemma search_insert_from word index :
  forall prefix node, marked node = true ->
    Permutation
      (search (mkTrie (insert_from word index node)) prefix)
      ((if String.prefix prefix word then [index] else [])
       ++ search (mkTrie node) prefix).
Proof.
  induction word as [|a w IH]; intros [|c p] node H.
  - apply (collect_insert_from "" index node H).
  - destruct node as [ch e idxs]. reflexivity.
  - apply (collect_insert_from (String a w) index node H).
  - destruct node as [ch e idxs].
    cbn [insert_from children is_end book_indices].
    rewrite !search_cons. cbn [children String.prefix].
    simpl in H. apply andb_true_iff in H as [_ H].
    destruct (ascii_dec c a) as [->|Hne].
    + rewrite dict_get_set_same.
      rewrite (IH p _ (marked_child_or_new a ch H)).
      unfold child_or_new.
      destruct (dict_get a ch); [reflexivity|].
      now rewrite search_new_node.
    + now rewrite dict_get_set_other by exact Hne.
Qed.

Lemma marked_insert_all ps :
  forall t, marked (root t) = true ->
            marked (root (insert_all t ps)) = true.
Proof.
  induction ps as [|[w i] ps IH]; intros t H; simpl; auto.
  apply IH. simpl. now apply marked_insert_from.
Qed.

(** The result of [search] after a sequence of insertions: what was
    there before, and one index per inserted word with the prefix. *)
Lemma search_insert_all prefix ps :
  forall t, marked (root t) = true ->
    Permutation (search (insert_all t ps) prefix)
                (search t prefix ++ matching prefix ps).
Proof.
  unfold matching.
  induction ps as [|[w i] ps IH]; intros [node] H; simpl in *.
  - now rewrite app_nil_r.
  - rewrite IH by (simpl; now apply marked_insert_from).
    unfold insert; simpl.
    rewrite (search_insert_from w i prefix node H).
    destruct (String.prefix prefix w); simpl.
    + apply Permutation_middle.
    + reflexivity.
Qed.

(** [__init__] performs the insertions of [insertions], in order. *)
Lemma init_trie_insert_all df :
  trie (TrieBasedRecommender_init df)
  = insert_all Trie_init (insertions df).
Proof.
  unfold TrieBasedRecommender_init, insertions; simpl.
  generalize Trie_init. induction (iterrows df) as [|row l IH]; intros t.
  - reflexivity.
  - simpl. unfold insert_all in *. rewrite fold_left_app, <- IH.
    f_equal. unfold index_book, insertions_of.
    generalize t. induction (words (snd row)) as [|w ws IHw]; intros t0.
    + reflexivity.
    + simpl. apply IHw.
Qed.

(** What [search] returns on the trie built by [__init__]. *)
Lemma search_init df prefix :
  Permutation (search (trie (TrieBasedRecommender_init df)) prefix)
              (matching prefix (insertions df)).
Proof.
  rewrite init_trie_insert_all.
  rewrite search_insert_all by reflexivity.
  now rewrite search_new_node.
Qed.

(** ** Lemmas on the string methods *)

Lemma truthy_rstrip s :
  Py.truthy (Py.rstrip s) = negb (forallb Py.isspace (Py.chars s)).
Proof.
  induction s as [|c s IH]; simpl; [reflexivity|].
  destruct (Py.rstrip s); simpl in *.
  - destruct (forallb Py.isspace (Py.chars s)); [|discriminate].
    now destruct (Py.isspace c).
  - destruct (forallb Py.isspace (Py.chars s)); [discriminate|].
    now rewrite andb_false_r.
Qed.

Lemma blank_lstrip s :
  forallb Py.isspace (Py.chars (Py.lstrip s))
  = forallb Py.isspace (Py.chars s).
Proof.
  induction s as [|c s IH]; simpl; [reflexivity|].
  destruct (Py.isspace c) eqn:E; simpl; [exact IH | now rewrite E].
Qed.

(** [not s.strip()] holds exactly for the strings of white space. *)
Lemma truthy_strip s :
  Py.truthy (Py.strip s) = negb (forallb Py.isspace (Py.chars s)).
Proof. unfold Py.strip. now rewrite truthy_rstrip, blank_lstrip. Qed.

Lemma lower_char_not_upper c : Py.is_ascii_upper (Py.lower_char c) = false.
Proof. destruct c as [[] [] [] [] [] [] [] []]; reflexivity. Qed.

Lemma isspace_lower_char c : Py.isspace (Py.lower_char c) = Py.isspace c.
Proof. destruct c as [[] [] [] [] [] [] [] []]; reflexivity. Qed.

Lemma lower_char_idem c : Py.lower_char (Py.lower_char c) = Py.lower_char c.
Proof. destruct c as [[] [] [] [] [] [] [] []]; reflexivity. Qed.

Lemma lower_idem s : Py.lower (Py.lower s) = Py.lower s.
Proof.
  induction s as [|c s IH]; simpl; [reflexivity|].
  now rewrite lower_char_idem, IH.
Qed.

Lemma blank_lower s :
  forallb Py.isspace (Py.chars (Py.lower s))
  = forallb Py.isspace (Py.chars s).
Proof.
  induction s as [|c s IH]; simpl; [reflexivity|].
  now rewrite isspace_lower_char, IH.
Qed.

Lemma lower_no_upper s :
  existsb Py.is_ascii_upper (Py.chars (Py.lower s)) = false.
Proof.
  induction s as [|c s IH]; simpl; [reflexivity|].
  now rewrite lower_char_not_upper, IH.
Qed.

Lemma chars_app s1 s2 : Py.chars (s1 ++ s2) = (Py.chars s1 ++ Py.chars s2)%list.
Proof. induction s1 as [|c s1 IH]; simpl; [reflexivity | now rewrite IH]. Qed.

(** A word of [split] is made of characters of the text. *)
Lemma split_from_chars s :
  forall cur w, In w (Py.split_from cur s) ->
    forall c, In c (Py.chars w) -> In c (Py.chars cur) \/ In c (Py.chars s).
Proof.
  induction s as [|a s IH]; simpl; intros cur w Hw c Hc.
  - destruct (String.length cur =? 0); [contradiction|].
    destruct Hw as [<-|[]]. now left.
  - destruct (Py.isspace a).
    + destruct (String.length cur =? 0).
      * destruct (IH _ _ Hw _ Hc) as [[]|H]. now right; right.
      * destruct Hw as [<-|Hw]; [now left|].
        destruct (IH _ _ Hw _ Hc) as [[]|H]. now right; right.
    + destruct (IH _ _ Hw _ Hc) as [H|H]; [|now right; right].
      rewrite chars_app in H. apply in_app_or in H as [H|H]; [now left|].
      destruct H as [<-|[]]. now right; left.
Qed.

Lemma existsb_false_In {A} (f : A -> bool) l x :
  existsb f l = false -> In x l -> f x = false.
Proof.
  intros H Hx. destruct (f x) eqn:E; [|reflexivity].
  rewrite <- H. symmetry. apply existsb_exists. eauto.
Qed.

(** The indexed words contain no upper-case ASCII letter. *)
Lemma words_no_upper b w :
  In w (words b) -> existsb Py.is_ascii_upper (Py.chars w) = false.
Proof.
  intros Hw. destruct (existsb _ _) eqn:E; [|reflexivity].
  apply existsb_exists in E as (c & Hc & Hu).
  destruct (split_from_chars _ _ _ Hw _ Hc) as [[]|H].
  now rewrite (existsb_false_In _ _ _ (lower_no_upper _) H) in Hu.
Qed.

Lemma prefix_chars p :
  forall w, String.prefix p w = true ->
            forall c, In c (Py.chars p) -> In c (Py.chars w).
Proof.
  induction p as [|a p IH]; intros w H c Hc; [contradiction|].
  destruct w as [|b w]; simpl in H; [discriminate|].
  destruct (ascii_dec a b) as [->|]; [|discriminate].
  destruct Hc as [<-|Hc]; [now left | right; eauto].
Qed.

(** ** Lemmas on the sort *)

Section SortFacts.
Context {A : Type} (key : A -> Q).

Lemma sort_insert_perm x l : Permutation (Py.sort_insert key x l) (x :: l).
Proof.
  induction l as [|y l IH]; simpl; [reflexivity|].
  destruct (Qle_bool (key y) (key x)); [reflexivity|].
  rewrite IH. apply perm_swap.
Qed.

Lemma sort_reverse_perm l : Permutation (Py.sort_reverse key l) l.
Proof.
  induction l as [|x l IH]; simpl; [reflexivity|].
  rewrite sort_insert_perm. now constructor.
Qed.

Lemma Qle_bool_false x y : Qle_bool x y = false -> (y <= x)%Q.
Proof.
  intros H. apply Qlt_le_weak, Qnot_le_lt. intros Hle.
  apply Qle_bool_iff in Hle. congruence.
Qed.

Lemma sort_insert_sorted x l :
  Sorted.Sorted (non_increasing key) l ->
  Sorted.Sorted (non_increasing key) (Py.sort_insert key x l).
Proof.
  induction 1 as [|y l Hs IH Hhd]; simpl.
  - repeat constructor.
  - destruct (Qle_bool (key y) (key x)) eqn:E.
    + repeat constructor; auto. now apply Qle_bool_iff.
    + constructor; auto.
      destruct Hhd as [|z l Hz]; simpl.
      * constructor. now apply Qle_bool_false.
      * destruct (Qle_bool (key z) (key x)); constructor; auto.
        now apply Qle_bool_false.
Qed.

Lemma sort_reverse_sorted l :
  Sorted.Sorted (non_increasing key) (Py.sort_reverse key l).
Proof.
  induction l; simpl; [constructor | now apply sort_insert_sorted].
Qed.

Lemma sort_insert_stable r x l :
  with_key key r (Py.sort_insert key x l) = with_key key r (x :: l).
Proof.
  unfold with_key.
  induction l as [|y l IH]; simpl; [reflexivity|].
  destruct (Qle_bool (key y) (key x)) eqn:E; [reflexivity|].
  simpl in *. rewrite IH.
  destruct (Qeq_bool (key y) r) eqn:Ey; destruct (Qeq_bool (key x) r) eqn:Ex;
    try reflexivity.
  apply Qeq_bool_iff in Ey, Ex.
  assert (Qle_bool (key y) (key x) = true); [|congruence].
  apply Qle_bool_iff. rewrite Ey, Ex. apply Qle_refl.
Qed.

Lemma sort_reverse_stable r l :
  with_key key r (Py.sort_reverse key l) = with_key key r l.
Proof.
  induction l as [|x l IH]; simpl; [reflexivity|].
  rewrite sort_insert_stable. unfold with_key in *. simpl. now rewrite IH.
Qed.

(** Adjacent elements of a sorted list. *)
Lemma sorted_adjacent l :
  Sorted.Sorted (non_increasing key) l ->
  forall i a b, nth_error l i = Some a -> nth_error l (S i) = Some b ->
                (key b <= key a)%Q.
Proof.
  induction 1 as [|x l Hs IH Hhd]; intros i a b Ha Hb.
  - now destruct i.
  - destruct i as [|i]; simpl in *.
    + injection Ha as <-. destruct Hhd; [discriminate|].
      injection Hb as <-. assumption.
    + eauto.
Qed.

(** Two sorted lists with the same elements are equal when elements
    with equal keys are equal. *)
Lemma sorted_perm_unique l1 :
  forall l2,
    (forall a b, In a l1 -> In b l1 -> (key a == key b)%Q -> a = b) ->
    Sorted.StronglySorted (non_increasing key) l1 ->
    Sorted.StronglySorted (non_increasing key) l2 ->
    Permutation l1 l2 -> l1 = l2.
Proof.
  induction l1 as [|x l1 IH]; intros l2 Hinj S1 S2 HP.
  - now apply Permutation_nil in HP.
  - destruct l2 as [|y l2];
      [now apply Permutation_sym, Permutation_nil in HP|].
    inversion S1 as [|? ? S1' F1]; inversion S2 as [|? ? S2' F2]; subst.
    assert (x = y) as ->.
    { assert (Hy : In y (x :: l1))
        by (eapply Permutation_in; [symmetry; exact HP | now left]).
      assert (Hx : In x (y :: l2))
        by (eapply Permutation_in; [exact HP | now left]).
      destruct Hy as [->|Hy]; [reflexivity|].
      destruct Hx as [->|Hx]; [reflexivity|].
      rewrite Forall_forall in F1, F2.
      symmetry. apply Hinj; [now right | now left |].
      apply Qle_antisym; [apply (F1 _ Hy) | apply (F2 _ Hx)]. }
    f_equal. apply IH; auto.
    + intros a b Ha Hb. apply Hinj; now right.
    + now apply Permutation_cons_inv in HP.
Qed.

End SortFacts.

(** ** Lemmas on the list comprehension *)

Lemma recommended_resolve df author genre_ min_rating indices :
  recommended df indices author genre_ min_rating
  = option_map (filter (passes author genre_ min_rating))
               (resolve df indices).
Proof.
  induction indices as [|idx rest IH]; simpl; [reflexivity|].
  destruct (iloc df idx) as [b|]; [|reflexivity].
  rewrite IH. destruct (resolve df rest); reflexivity.
Qed.

Lemma resolve_app df l1 l2 :
  resolve df (l1 ++ l2)
  = match resolve df l1, resolve df l2 with
    | Some o1, Some o2 => Some (o1 ++ o2)
    | _, _ => None
    end.
Proof.
  induction l1 as [|i l1 IH]; simpl.
  - now destruct (resolve df l2).
  - destruct (iloc df i); [|reflexivity]. rewrite IH.
    destruct (resolve df l1); [|reflexivity].
    now destruct (resolve df l2).
Qed.

Lemma resolve_length df indices out :
  resolve df indices = Some out -> List.length out = List.length indices.
Proof.
  revert out. induction indices as [|i l IH]; simpl; intros out H.
  - now injection H as <-.
  - destruct (iloc df i); [|discriminate].
    destruct (resolve df l); [|discriminate].
    injection H as <-. simpl. f_equal. now apply IH.
Qed.

Lemma resolve_In df indices out b :
  resolve df indices = Some out -> In b out -> In b (rows df).
Proof.
  revert out. induction indices as [|i l IH]; simpl; intros out H Hb.
  - injection H as <-. contradiction.
  - destruct (iloc df i) as [x|] eqn:E; [|discriminate].
    destruct (resolve df l); [|discriminate].
    injection H as <-. destruct Hb as [<-|Hb]; eauto.
    unfold iloc in E. now apply nth_error_In in E.
Qed.

(** Candidates in another order resolve to the rows in that order. *)
Lemma resolve_perm df l1 l2 :
  Permutation l1 l2 ->
  forall o1, resolve df l1 = Some o1 ->
             exists o2, resolve df l2 = Some o2 /\ Permutation o1 o2.
Proof.
  induction 1 as [|i l l' HP IH|i j l|l l' l'' H1 IH1 H2 IH2];
    simpl; intros o1 Ho.
  - exists []. split; [reflexivity|]. injection Ho as <-. constructor.
  - destruct (iloc df i); [|discriminate].
    destruct (resolve df l); [|discriminate].
    injection Ho as <-. destruct (IH _ eq_refl) as (o2 & -> & Hp).
    eexists. split; [reflexivity | now constructor].
  - destruct (iloc df j); [|discriminate].
    destruct (iloc df i); [|discriminate].
    destruct (resolve df l); [|discriminate].
    injection Ho as <-. eexists. split; [reflexivity | apply perm_swap].
  - destruct (IH1 _ Ho) as (o2 & Ho2 & Hp2).
    destruct (IH2 _ Ho2) as (o3 & Ho3 & Hp3).
    exists o3. split; [assumption | now transitivity o2].
Qed.

Lemma resolve_seq_from df : forall l pre,
  rows df = (pre ++ l)%list ->
  resolve df (seq (List.length pre) (List.length l)) = Some l.
Proof.
  induction l as [|x l IH]; intros pre H; simpl; [reflexivity|].
  unfold iloc. rewrite H, nth_error_app2, Nat.sub_diag by lia. simpl.
  specialize (IH (pre ++ [x])%list).
  rewrite length_app, Nat.add_1_r in IH. rewrite IH; [reflexivity|].
  now rewrite <- app_assoc.
Qed.

(** All indices of the frame, in order, resolve to all its rows. *)
Lemma resolve_seq df : resolve df (seq 0 (len df)) = Some (rows df).
Proof. apply (resolve_seq_from df (rows df) []). reflexivity. Qed.

(** ** Lemmas on the insertions of [__init__] *)

Lemma matching_app prefix ps1 ps2 :
  matching prefix (ps1 ++ ps2)
  = (matching prefix ps1 ++ matching prefix ps2)%list.
Proof. unfold matching. now rewrite filter_app, map_app. Qed.

Lemma matching_perm prefix ps1 ps2 :
  Permutation ps1 ps2 ->
  Permutation (matching prefix ps1) (matching prefix ps2).
Proof.
  intros H. unfold matching. apply Permutation_map.
  induction H; simpl.
  - constructor.
  - destruct (String.prefix prefix (fst x)); auto.
  - destruct (String.prefix prefix (fst x));
      destruct (String.prefix prefix (fst y)); auto. apply perm_swap.
  - etransitivity; eauto.
Qed.

Lemma matching_length prefix ps :
  List.length (matching prefix ps) <= List.length ps.
Proof. unfold matching. rewrite length_map. apply filter_length_le. Qed.

(** The words of one row contribute the row's index once per word
    with the prefix. *)
Lemma matching_insertions_of prefix idx b :
  matching prefix (insertions_of (idx, b))
  = repeat idx (occurrences prefix b).
Proof.
  unfold matching, insertions_of, occurrences; simpl.
  induction (words b) as [|w ws IH]; simpl; [reflexivity|].
  destruct (String.prefix prefix w); simpl; now rewrite IH.
Qed.

Lemma resolve_repeat df idx b n :
  iloc df idx = Some b -> resolve df (repeat idx n) = Some (repeat b n).
Proof.
  intros H. induction n as [|n IH]; simpl; [reflexivity|].
  now rewrite H, IH.
Qed.

(** The rows that the matching indices denote: every row, once per
    word of it with the prefix, in the order of the frame. *)
Lemma resolve_matching_from prefix df : forall l pre,
  rows df = (pre ++ l)%list ->
  resolve df
    (matching prefix
       (flat_map insertions_of
          (combine (seq (List.length pre) (List.length l)) l)))
  = Some (flat_map (fun b => repeat b (occurrences prefix b)) l).
Proof.
  induction l as [|x l IH]; intros pre H; simpl; [reflexivity|].
  rewrite matching_app, resolve_app, matching_insertions_of.
  rewrite (resolve_repeat df _ x).
  - specialize (IH (pre ++ [x])%list).
    rewrite length_app, Nat.add_1_r in IH. rewrite IH; [reflexivity|].
    now rewrite <- app_assoc.
  - unfold iloc. now rewrite H, nth_error_app2, Nat.sub_diag by lia.
Qed.

Lemma resolve_matching prefix df :
  resolve df (matching prefix (insertions df))
  = Some (flat_map (fun b => repeat b (occurrences prefix b)) (rows df)).
Proof. apply (resolve_matching_from prefix df (rows df) []). reflexivity. Qed.

(** How often an index is among the matching ones. *)
Lemma count_matching_from prefix idx : forall l s,
  count_occ Nat.eq_dec
    (matching prefix
       (flat_map insertions_of (combine (seq s (List.length l)) l))) idx
  = match nth_error l (idx - s) with
    | Some b => if s <=? idx then occurrences prefix b else 0
    | None => 0
    end.
Proof.
  induction l as [|x l IH]; intros s; simpl.
  - now destruct (idx - s).
  - rewrite matching_app, count_occ_app, matching_insertions_of, IH.
    destruct (Nat.eq_dec s idx) as [->|Hne].
    + rewrite count_occ_repeat_eq, Nat.sub_diag, Nat.leb_refl by reflexivity.
      cbn [nth_error].
      destruct (Nat.leb_spec (S idx) idx); [lia|].
      destruct (nth_error l (idx - S idx)); lia.
    + rewrite count_occ_repeat_neq by congruence. cbn [Nat.add].
      destruct (Nat.leb_spec s idx).
      * destruct (idx - s) as [|k] eqn:E; [lia|].
        replace (idx - S s) with k by lia. cbn [nth_error].
        destruct (Nat.leb_spec (S s) idx); [reflexivity | lia].
      * replace (idx - s) with 0 by lia. cbn [nth_error].
        destruct (Nat.leb_spec (S s) idx); [lia|].
        now destruct (nth_error l (idx - S s)).
Qed.

Lemma count_matching prefix df idx :
  count_occ Nat.eq_dec (matching prefix (insertions df)) idx
  = match iloc df idx with
    | Some b => occurrences prefix b
    | None => 0
    end.
Proof.
  unfold insertions, iterrows, len, iloc.
  rewrite count_matching_from, Nat.sub_0_r. simpl.
  reflexivity.
Qed.

(** ** Lemmas on the size of the trie *)

Lemma nodes_insert_from word index : forall node,
  nodes (insert_from word index node) <= nodes node + String.length word.
Proof.
  induction word as [|c w IH]; intros [ch e idxs]; simpl; [lia|].
  pose proof (list_sum_dict_set c
                (insert_from w index (child_or_new c ch)) nodes ch) as E.
  pose proof (IH (child_or_new c ch)) as IHc.
  assert (match dict_get c ch with
          | Some _ => 0
          | None => nodes TrieNode_init
          end <= 1) by (destruct (dict_get c ch); simpl; lia).
  lia.
Qed.

Lemma nodes_insert_all ps : forall t,
  nodes (root (insert_all t ps))
  <= nodes (root t) + list_sum (map (fun p => String.length (fst p)) ps).
Proof.
  induction ps as [|[w i] ps IH]; intros t; simpl; [lia|].
  rewrite IH. simpl. pose proof (nodes_insert_from w i (root t)). lia.
Qed.

Lemma nodes_dict_get char d ch :
  dict_get char d = Some ch ->
  nodes ch <= list_sum (map (fun kv => nodes (snd kv)) d).
Proof.
  induction d as [|[k w] d IH]; simpl; [discriminate|].
  destruct (Ascii.eqb k char).
  - intros [= ->]. lia.
  - intros H. apply IH in H. lia.
Qed.

Lemma nodes_walk prefix : forall node sub,
  walk prefix node = Some sub -> nodes sub <= nodes node.
Proof.
  induction prefix as [|c p IH]; intros [ch e idxs] sub; simpl.
  - now intros [= <-].
  - destruct (dict_get c ch) as [child|] eqn:E; [|discriminate].
    intros H. apply IH in H. apply nodes_dict_get in E. lia.
Qed.

(** ** Counting rows *)

Lemma perm_count {A} (eq_dec : forall x y : A, {x = y} + {x <> y})
  (l1 l2 : list A) (x : A) :
  Permutation l1 l2 -> count_occ eq_dec l1 x = count_occ eq_dec l2 x.
Proof. intros H. now apply (Permutation_count_occ eq_dec l1 l2). Qed.

Lemma count_occ_filter_pass (p : book -> bool) b l :
  p b = true ->
  count_occ book_eq_dec (filter p l) b = count_occ book_eq_dec l b.
Proof.
  intros Hb. induction l as [|x l IH]; simpl; [reflexivity|].
  destruct (book_eq_dec x b) as [->|Hne].
  - rewrite Hb. simpl. destruct (book_eq_dec b b); congruence.
  - destruct (p x); simpl; [|exact IH].
    destruct (book_eq_dec x b); congruence.
Qed.

Lemma count_occ_repeated (f : book -> nat) b l :
  count_occ book_eq_dec (flat_map (fun x => repeat x (f x)) l) b
  = count_occ book_eq_dec l b * f b.
Proof.
  induction l as [|x l IH]; simpl; [reflexivity|].
  rewrite count_occ_app, IH.
  destruct (book_eq_dec x b) as [->|Hne].
  - rewrite count_occ_repeat_eq by reflexivity. simpl. lia.
  - rewrite count_occ_repeat_neq by congruence. reflexivity.
Qed.

Lemma occurrences_pos prefix b word :
  In word (words b) -> String.prefix prefix word = true ->
  0 < occurrences prefix b.
Proof.
  intros Hw Hp. unfold occurrences.
  assert (H : In word (filter (String.prefix prefix) (words b)))
    by (apply filter_In; auto).
  destruct (filter _ _); [contradiction | simpl; lia].
Qed.

(** ** Indices behind the rows of a result *)

Lemma resolve_Forall2 df indices out :
  resolve df indices = Some out ->
  Forall2 (fun idx b => iloc df idx = Some b) indices out.
Proof.
  revert out. induction indices as [|i l IH]; simpl; intros out H.
  - injection H as <-. constructor.
  - destruct (iloc df i) eqn:E; [|discriminate].
    destruct (resolve df l); [|discriminate].
    injection H as <-. constructor; auto.
Qed.

Section Forall2Facts.
Context {A B : Type} (R : A -> B -> Prop).

Lemma Forall2_filter (p : A -> bool) (q : B -> bool) l1 l2 :
  (forall x y, R x y -> p x = q y) ->
  Forall2 R l1 l2 -> Forall2 R (filter p l1) (filter q l2).
Proof.
  intros Hpq. induction 1 as [|x y l1 l2 Hxy HF IH]; simpl.
  - constructor.
  - rewrite (Hpq _ _ Hxy). destruct (q y); auto.
Qed.

Lemma Forall2_sort_insert (k1 : A -> Q) (k2 : B -> Q) x y l1 l2 :
  (forall x y, R x y -> k1 x = k2 y) ->
  R x y -> Forall2 R l1 l2 ->
  Forall2 R (Py.sort_insert k1 x l1) (Py.sort_insert k2 y l2).
Proof.
  intros Hk Hxy. induction 1 as [|x' y' l1 l2 Hxy' HF IH]; simpl.
  - repeat constructor; assumption.
  - rewrite (Hk _ _ Hxy), (Hk _ _ Hxy').
    destruct (Qle_bool (k2 y') (k2 y)); repeat constructor; assumption.
Qed.

Lemma Forall2_sort_reverse (k1 : A -> Q) (k2 : B -> Q) l1 l2 :
  (forall x y, R x y -> k1 x = k2 y) ->
  Forall2 R l1 l2 ->
  Forall2 R (Py.sort_reverse k1 l1) (Py.sort_reverse k2 l2).
Proof.
  intros Hk. induction 1; simpl.
  - constructor.
  - now apply Forall2_sort_insert.
Qed.

End Forall2Facts.

Lemma count_occ_filter_nat (p : nat -> bool) idx l :
  p idx = true ->
  count_occ Nat.eq_dec (filter p l) idx = count_occ Nat.eq_dec l idx.
Proof.
  intros Hp. induction l as [|x l IH]; simpl; [reflexivity|].
  destruct (Nat.eq_dec x idx) as [->|Hne].
  - rewrite Hp. simpl. destruct (Nat.eq_dec idx idx); congruence.
  - destruct (p x); simpl; [|exact IH].
    destruct (Nat.eq_dec x idx); congruence.
Qed.

(** On the trie of [__init__], the candidates of a query that is not
    blank resolve, to the matching rows in some order. *)
Lemma resolve_search_init df prefix :
  exists out,
    resolve df (search (trie (TrieBasedRecommender_init df)) prefix)
    = Some out
    /\ Permutation
         (flat_map (fun b => repeat b (occurrences prefix b)) (rows df))
         out.
Proof.
  apply (resolve_perm df (matching prefix (insertions df))).
  - symmetry. apply search_init.
  - apply resolve_matching.
Qed.

(** ** Results for two orders of insertion *)

Lemma filter_perm {A} (p : A -> bool) l1 l2 :
  Permutation l1 l2 -> Permutation (filter p l1) (filter p l2).
Proof.
  induction 1 as [|x l l' HP IH|x y l|l l' l'' H1 IH1 H2 IH2]; simpl.
  - constructor.
  - destruct (p x); auto.
  - destruct (p x); destruct (p y); auto. apply perm_swap.
  - now transitivity (filter p l').
Qed.

Lemma non_increasing_trans {A} (key : A -> Q) :
  Relations_1.Transitive (non_increasing key).
Proof.
  intros a b c Hab Hbc. unfold non_increasing in *.
  now apply Qle_trans with (key b).
Qed.

Lemma sort_reverse_strongly_sorted {A} (key : A -> Q) l :
  Sorted.StronglySorted (non_increasing key) (Py.sort_reverse key l).
Proof.
  apply Sorted.Sorted_StronglySorted.
  - apply non_increasing_trans.
  - apply sort_reverse_sorted.
Qed.

(** The candidates of a query, for two orders of the same insertions,
    are the same up to order. *)
Lemma recommended_indices_perm df ps1 ps2 search_query :
  Permutation ps1 ps2 ->
  Permutation
    (recommended_indices (mkRecommender df (insert_all Trie_init ps1))
       search_query)
    (recommended_indices (mkRecommender df (insert_all Trie_init ps2))
       search_query).
Proof.
  intros HP. unfold recommended_indices. cbn [books_df trie].
  destruct (negb (Py.truthy (Py.strip search_query))); [reflexivity|].
  rewrite !search_insert_all by reflexivity.
  rewrite search_new_node. simpl. now apply matching_perm.
Qed.

Lemma resolve_perm_none df l1 l2 :
  Permutation l1 l2 -> resolve df l1 = None -> resolve df l2 = None.
Proof.
  intros HP H1. destruct (resolve df l2) as [o2|] eqn:E; [|reflexivity].
  destruct (resolve_perm df l2 l1 (Permutation_sym HP) o2 E) as (o1 & Ho1 & _).
  congruence.
Qed.

(** All words put into the trie by [__init__] are words of rows. *)
Lemma insertions_words df word idx :
  In (word, idx) (insertions df) -> exists b, In word (words b).
Proof.
  unfold insertions, insertions_of. intros H.
  apply in_flat_map in H as ([i b] & _ & H).
  apply in_map_iff in H as (w & [= <- _] & Hw). now exists b.
Qed.

Lemma matching_none prefix ps :
  (forall p, In p ps -> String.prefix prefix (fst p) = false) ->
  matching prefix ps = [].
Proof.
  unfold matching. induction ps as [|p ps IH]; simpl; intros H; auto.
  rewrite (H p) by now left. apply IH. intros q Hq. apply H. now right.
Qed.

(** * The properties of the specification *)

(** C1.  Prefix-search completeness: on the trie built by [__init__],
    for every row with index [idx], every word [T] of its lower-cased
    searchable text and every prefix [P] of [T] (also [T] itself),
    [search P] contains [idx]. *)
Theorem prefix_search_complete (df : DataFrame) (idx : nat) (b : book)
  (T P : string) :
  iloc df idx = Some b ->
  In T (words b) ->
  String.prefix P T = true ->
  In idx (search (trie (TrieBasedRecommender_init df)) P).
Proof.
  intros Hrow HT HP.
  apply (Permutation_in idx (Permutation_sym (search_init df P))).
  apply (count_occ_In Nat.eq_dec).
  rewrite count_matching, Hrow.
  apply (occurrences_pos P b T HT HP).
Qed.

Lemma prefix_search_complete_witness :
  In 1 (search (trie (TrieBasedRecommender_init catalogue)) "mes").
Proof.
  apply (prefix_search_complete catalogue 1
           (mkBook "Dune Messiah" "Herbert" "Sci-Fi" (38 # 10) [])
           "messiah" "mes").
  - reflexivity.
  - vm_compute. right; left; reflexivity.
  - reflexivity.
Defined.

(** C2.  The filtering step is a list filter over the rows of the
    candidates, in their order: a row is kept exactly when
    ([author] is "All" or equals its authors) and ([genre] is "All" or
    equals its genre) and its rating is at least [min_rating].  With
    "All" a dimension excludes no row, whatever the row holds there. *)
Theorem filtering_is_list_filter (df : DataFrame) (indices : list nat)
  (author genre_ : string) (min_rating : Q) :
  recommended df indices author genre_ min_rating
  = option_map (filter (passes author genre_ min_rating))
               (resolve df indices)
  /\ (forall b,
        passes author genre_ min_rating b = true <->
        (author = "All" \/ authors b = author)
        /\ (genre_ = "All" \/ genre b = genre_)
        /\ (min_rating <= average_rating b)%Q)
  /\ (forall b,
        passes "All" genre_ min_rating b
        = (String.eqb genre_ "All" || String.eqb (genre b) genre_)
          && Qle_bool min_rating (average_rating b))
  /\ (forall b,
        passes author "All" min_rating b
        = (String.eqb author "All" || String.eqb (authors b) author)
          && Qle_bool min_rating (average_rating b)).
Proof.
  split; [apply recommended_resolve|].
  split; [|split; intros b; unfold passes; simpl;
           [reflexivity | now rewrite andb_true_r]].
  intros b. unfold passes.
  rewrite !andb_true_iff, !orb_true_iff, !String.eqb_eq, Qle_bool_iff.
  tauto.
Qed.

(** C3.  The list returned by [recommend_books] is in non-increasing
    order of [average_rating] (every adjacent pair), and the sort is
    stable: for every rating, the rows with that rating are in the order
    in which the filtering step produced them. *)
Theorem result_sorted_stable (self : TrieBasedRecommender)
  (search_query author genre_ : string) (min_rating : Q)
  (out : list book) :
  recommend_books self search_query author genre_ min_rating = Some out ->
  (forall i a b,
      nth_error out i = Some a -> nth_error out (S i) = Some b ->
      (average_rating b <= average_rating a)%Q)
  /\ exists filtered,
       recommended (books_df self) (recommended_indices self search_query)
         author genre_ min_rating = Some filtered
       /\ Permutation out filtered
       /\ forall r, with_key average_rating r out
                    = with_key average_rating r filtered.
Proof.
  unfold recommend_books. intros H.
  destruct (recommended _ _ _ _ _) as [filtered|]; [|discriminate].
  injection H as <-. split.
  - apply sorted_adjacent, sort_reverse_sorted.
  - exists filtered. split; [reflexivity|]. split.
    + apply sort_reverse_perm.
    + intros r. apply sort_reverse_stable.
Qed.

Lemma result_sorted_stable_witness :
  (forall i a b,
      nth_error (firstn 2 (rows catalogue)) i = Some a ->
      nth_error (firstn 2 (rows catalogue)) (S i) = Some b ->
      (average_rating b <= average_rating a)%Q)
  /\ exists filtered,
       recommended catalogue
         (recommended_indices (TrieBasedRecommender_init catalogue) "dune")
         "All" "All" 1 = Some filtered
       /\ Permutation (firstn 2 (rows catalogue)) filtered
       /\ forall r, with_key average_rating r (firstn 2 (rows catalogue))
                    = with_key average_rating r filtered.
Proof.
  apply (result_sorted_stable (TrieBasedRecommender_init catalogue)
           "dune" "All" "All" 1).
  reflexivity.
Defined.

(** C4.  For an empty or white-space-only query the candidates of
    [recommend_books] are all indices [0..n-1] in order and the trie is
    not consulted; for every other query they are what [search] returns
    for the lower-cased query. *)
Theorem candidates_by_query (self : TrieBasedRecommender)
  (search_query author genre_ : string) (min_rating : Q) :
  let candidates :=
    if forallb Py.isspace (Py.chars search_query)
    then seq 0 (len (books_df self))
    else search (trie self) (Py.lower search_query) in
  recommended_indices self search_query = candidates
  /\ recommend_books self search_query author genre_ min_rating
     = option_map (Py.sort_reverse average_rating)
         (recommended (books_df self) candidates author genre_ min_rating).
Proof.
  assert (E : recommended_indices self search_query
              = if forallb Py.isspace (Py.chars search_query)
                then seq 0 (len (books_df self))
                else search (trie self) (Py.lower search_query)).
  { unfold recommended_indices. rewrite truthy_strip, negb_involutive.
    reflexivity. }
  simpl. split; [exact E|]. unfold recommend_books. now rewrite E.
Qed.

(** C5.  Duplicates are preserved end to end.  On the trie of
    [__init__] the index of a row is in the output of [search] once per
    word of the row that starts with the prefix.  For a query that is
    not blank, if the row passes the filters, the returned list is the
    rows of a list of indices in which the index of the row occurs that
    many times; counted as values (rows of the result carry no index,
    so equal rows of the frame count together) the row occurs that many
    times for every place it has in the frame. *)
Theorem duplicates_preserved (df : DataFrame) (idx : nat) (b : book) :
  iloc df idx = Some b ->
  (forall P,
      count_occ Nat.eq_dec
        (search (trie (TrieBasedRecommender_init df)) P) idx
      = occurrences P b)
  /\ (forall search_query author genre_ min_rating,
        Py.truthy (Py.strip search_query) = true ->
        passes author genre_ min_rating b = true ->
        exists ids out,
          recommend_books (TrieBasedRecommender_init df)
            search_query author genre_ min_rating = Some out
          /\ Forall2 (fun i r => iloc df i = Some r) ids out
          /\ count_occ Nat.eq_dec ids idx
             = occurrences (Py.lower search_query) b
          /\ count_occ book_eq_dec out b
             = count_occ book_eq_dec (rows df) b
               * occurrences (Py.lower search_query) b).
Proof.
  intros Hrow.
  assert (Hcount : forall P,
             count_occ Nat.eq_dec
               (search (trie (TrieBasedRecommender_init df)) P) idx
             = occurrences P b).
  { intros P.
    rewrite (perm_count Nat.eq_dec _ _ _ (search_init df P)).
    now rewrite count_matching, Hrow. }
  split; [exact Hcount|].
  intros q author genre_ min_rating Hq Hpass.
  set (P := Py.lower q).
  set (cands := search (trie (TrieBasedRecommender_init df)) P).
  destruct (resolve_search_init df P) as (bs & Hres & Hperm).
  exists (Py.sort_reverse (rating_at df)
            (filter (passes_at df author genre_ min_rating) cands)).
  exists (Py.sort_reverse average_rating
            (filter (passes author genre_ min_rating) bs)).
  split; [|split; [|split]].
  - unfold recommend_books, recommended_indices.
    rewrite Hq. cbn [negb].
    change (books_df (TrieBasedRecommender_init df)) with df.
    rewrite recommended_resolve. fold P. now rewrite Hres.
  - apply Forall2_sort_reverse.
    + intros i r Hi. unfold rating_at. now rewrite Hi.
    + apply Forall2_filter.
      * intros i r Hi. unfold passes_at. now rewrite Hi.
      * now apply resolve_Forall2.
  - rewrite (perm_count Nat.eq_dec _ _ _ (sort_reverse_perm _ _)).
    rewrite count_occ_filter_nat; [apply Hcount|].
    unfold passes_at. now rewrite Hrow.
  - rewrite (perm_count book_eq_dec _ _ _ (sort_reverse_perm _ _)).
    rewrite count_occ_filter_pass by exact Hpass.
    rewrite <- (perm_count book_eq_dec _ _ _ Hperm).
    apply count_occ_repeated.
Qed.

Lemma duplicates_preserved_witness :
  (forall P,
      count_occ Nat.eq_dec
        (search (trie (TrieBasedRecommender_init shelf)) P) 0
      = occurrences P time_machine)
  /\ (forall search_query author genre_ min_rating,
        Py.truthy (Py.strip search_query) = true ->
        passes author genre_ min_rating time_machine = true ->
        exists ids out,
          recommend_books (TrieBasedRecommender_init shelf)
            search_query author genre_ min_rating = Some out
          /\ Forall2 (fun i r => iloc shelf i = Some r) ids out
          /\ count_occ Nat.eq_dec ids 0
             = occurrences (Py.lower search_query) time_machine
          /\ count_occ book_eq_dec out time_machine
             = count_occ book_eq_dec (rows shelf) time_machine
               * occurrences (Py.lower search_query) time_machine).
Proof.
  apply (duplicates_preserved shelf 0).
  reflexivity.
Defined.

(** The row of "The Time Machine" has the word "time" twice: its index
    comes twice out of [search], and the row is twice in the result. *)
Example duplicates_time :
  search (trie (TrieBasedRecommender_init shelf)) "time" = [0; 0]
  /\ option_map (map title)
       (recommend_books (TrieBasedRecommender_init shelf)
          "Time" "All" "All" 1)
     = Some ["The Time Machine"; "The Time Machine"].
Proof. split; reflexivity. Qed.

(** C6.  When the walk along the prefix fails (a character has no
    child edge), [search] returns the empty list, and [recommend_books],
    for a query that reaches [search] with that prefix, returns the
    empty list, without error. *)
Theorem not_found_prefix_empty (self : TrieBasedRecommender) (P : string) :
  walk P (root (trie self)) = None ->
  search (trie self) P = []
  /\ (forall search_query author genre_ min_rating,
        Py.truthy (Py.strip search_query) = true ->
        Py.lower search_query = P ->
        recommend_books self search_query author genre_ min_rating
        = Some []).
Proof.
  intros Hwalk.
  assert (Hs : search (trie self) P = [])
    by (unfold search; now rewrite Hwalk).
  split; [exact Hs|].
  intros q author genre_ min_rating Hq HP.
  unfold recommend_books, recommended_indices.
  rewrite Hq, HP, Hs. reflexivity.
Qed.

Lemma not_found_prefix_empty_witness :
  search (trie (TrieBasedRecommender_init catalogue)) "zzz" = []
  /\ (forall search_query author genre_ min_rating,
        Py.truthy (Py.strip search_query) = true ->
        Py.lower search_query = "zzz" ->
        recommend_books (TrieBasedRecommender_init catalogue)
          search_query author genre_ min_rating
        = Some []).
Proof.
  apply (not_found_prefix_empty (TrieBasedRecommender_init catalogue) "zzz").
  reflexivity.
Defined.

(** C7 as stated fails: the error does not name the missing columns.
    A frame that lacks only [genre] and a frame that lacks only [title]
    get the same message, which lists all four required columns, those
    that are present included. *)
Lemma schema_error_not_specific :
  (forall c, missing no_genre c <-> c = "genre")
  /\ (forall c, missing no_title c <-> c = "title")
  /\ startup no_genre = startup no_title
  /\ startup no_genre
     = [st_error "The CSV file must contain the following columns: "
          ["title"; "authors"; "genre"; "average_rating"];
        st_stop].
Proof.
  split; [|split; [|split; reflexivity]].
  - intros c. unfold missing. simpl. split.
    + intros [[<-|[<-|[<-|[<-|[]]]]] H]; try reflexivity;
        exfalso; apply H; tauto.
    + intros ->. split; [tauto|].
      intros [H|[H|[H|[]]]]; discriminate H.
  - intros c. unfold missing. simpl. split.
    + intros [[<-|[<-|[<-|[<-|[]]]]] H]; try reflexivity;
        exfalso; apply H; tauto.
    + intros ->. split; [tauto|].
      intros [H|[H|[H|[]]]]; discriminate H.
Qed.

(** C7, amended.  When a required column is absent from the frame, the
    script shows one error and stops, and no recommender is
    constructed; the message is the same whichever column is missing
    and lists all four required columns.  When all four are present
    there is no error and the recommender is constructed. *)
Theorem schema_check (df : DataFrame) :
  ((exists c, missing df c) ->
   startup df
   = [st_error "The CSV file must contain the following columns: "
        ["title"; "authors"; "genre"; "average_rating"];
      st_stop])
  /\ ((forall c, In c required_columns -> In c (columns df)) ->
      startup df = [construct (TrieBasedRecommender_init df)]).
Proof.
  unfold startup, missing, issubset. split.
  - intros (c & Hreq & Habs).
    destruct (forallb _ required_columns) eqn:E; simpl; [|reflexivity].
    exfalso. apply Habs.
    rewrite forallb_forall in E. specialize (E c Hreq).
    apply existsb_exists in E as (x & Hx & Hcx).
    apply String.eqb_eq in Hcx. now subst.
  - intros Hall.
    destruct (forallb _ required_columns) eqn:E; simpl; [reflexivity|].
    exfalso. apply Bool.not_true_iff_false in E. apply E.
    apply forallb_forall. intros c Hc. apply existsb_exists.
    exists c. split; [now apply Hall | apply String.eqb_refl].
Qed.

Lemma schema_check_witness :
  startup headless
  = [st_error "The CSV file must contain the following columns: "
       ["title"; "authors"; "genre"; "average_rating"];
     st_stop]
  /\ startup shelf = [construct (TrieBasedRecommender_init shelf)].
Proof.
  split.
  - apply (proj1 (schema_check headless)).
    exists "genre". split.
    + right; right; left; reflexivity.
    + simpl. intros [H|[H|[H|[]]]]; discriminate H.
  - apply (proj2 (schema_check shelf)).
    simpl. intros c [<-|[<-|[<-|[<-|[]]]]]; simpl; tauto.
Defined.

(** C8 as stated fails.  The rows of "Dracula" and "Dune" have the same
    rating; inserting the same (word, index) pairs in the opposite order
    swaps the two rows in the answer to the query "d".  The first
    recommender is the one [__init__] builds. *)
Lemma insertion_order_changes_ties :
  Permutation (insertions shelf) (rev (insertions shelf))
  /\ mkRecommender shelf (insert_all Trie_init (insertions shelf))
     = TrieBasedRecommender_init shelf
  /\ option_map (map title)
       (recommend_books
          (mkRecommender shelf (insert_all Trie_init (insertions shelf)))
          "d" "All" "All" 1)
     = Some ["Dracula"; "Dune"]
  /\ option_map (map title)
       (recommend_books
          (mkRecommender shelf
             (insert_all Trie_init (rev (insertions shelf))))
          "d" "All" "All" 1)
     = Some ["Dune"; "Dracula"]
  /\ recommend_books
       (mkRecommender shelf (insert_all Trie_init (insertions shelf)))
       "d" "All" "All" 1
     <> recommend_books
          (mkRecommender shelf
             (insert_all Trie_init (rev (insertions shelf))))
          "d" "All" "All" 1.
Proof.
  split; [apply Permutation_rev|].
  split; [reflexivity|]. split; [reflexivity|]. split; [reflexivity|].
  vm_compute. discriminate.
Qed.

(** C8, amended.  For two insertion sequences of the same multiset of
    (word, index) pairs, and every query and filters, [recommend_books]
    fails for both or returns for both; the two lists hold the same rows
    the same number of times, both in non-increasing order of rating,
    and they are equal when rows of the frame with equal ratings are
    equal rows.  The order among different rows with the same rating
    depends on the order of insertion. *)
Theorem insertion_order_invariance (df : DataFrame)
  (ps1 ps2 : list (string * nat))
  (search_query author genre_ : string) (min_rating : Q) :
  Permutation ps1 ps2 ->
  match
    recommend_books (mkRecommender df (insert_all Trie_init ps1))
      search_query author genre_ min_rating,
    recommend_books (mkRecommender df (insert_all Trie_init ps2))
      search_query author genre_ min_rating
  with
  | Some out1, Some out2 =>
      Permutation out1 out2
      /\ Sorted.Sorted (non_increasing average_rating) out1
      /\ Sorted.Sorted (non_increasing average_rating) out2
      /\ ((forall x y, In x (rows df) -> In y (rows df) ->
                       (average_rating x == average_rating y)%Q -> x = y) ->
          out1 = out2)
  | None, None => True
  | _, _ => False
  end.
Proof.
  intros HP. unfold recommend_books.
  pose proof (recommended_indices_perm df ps1 ps2 search_query HP) as Hc.
  cbn [books_df]. rewrite !recommended_resolve.
  destruct (resolve df (recommended_indices
                          (mkRecommender df (insert_all Trie_init ps1))
                          search_query)) as [o1|] eqn:E1.
  - destruct (resolve_perm df _ _ Hc o1 E1) as (o2 & -> & Ho).
    cbn [option_map].
    assert (Hout : Permutation
                     (Py.sort_reverse average_rating
                        (filter (passes author genre_ min_rating) o1))
                     (Py.sort_reverse average_rating
                        (filter (passes author genre_ min_rating) o2))).
    { rewrite !sort_reverse_perm. now apply filter_perm. }
    split; [exact Hout|].
    split; [apply sort_reverse_sorted|].
    split; [apply sort_reverse_sorted|].
    intros Hties.
    apply (sorted_perm_unique average_rating); auto.
    + intros a b Ha Hb. apply Hties.
      * apply (resolve_In df _ o1 a E1).
        apply (Permutation_in a (sort_reverse_perm _ _)) in Ha.
        now apply filter_In in Ha.
      * apply (resolve_In df _ o1 b E1).
        apply (Permutation_in b (sort_reverse_perm _ _)) in Hb.
        now apply filter_In in Hb.
    + apply sort_reverse_strongly_sorted.
    + apply sort_reverse_strongly_sorted.
  - now rewrite (resolve_perm_none df _ _ Hc E1).
Qed.

Lemma insertion_order_invariance_witness :
  match
    recommend_books
      (mkRecommender catalogue (insert_all Trie_init (insertions catalogue)))
      "dune" "All" "All" 1,
    recommend_books
      (mkRecommender catalogue
         (insert_all Trie_init (rev (insertions catalogue))))
      "dune" "All" "All" 1
  with
  | Some out1, Some out2 =>
      Permutation out1 out2
      /\ Sorted.Sorted (non_increasing average_rating) out1
      /\ Sorted.Sorted (non_increasing average_rating) out2
      /\ ((forall x y, In x (rows catalogue) -> In y (rows catalogue) ->
                       (average_rating x == average_rating y)%Q -> x = y) ->
          out1 = out2)
  | None, None => True
  | _, _ => False
  end.
Proof.
  apply (insertion_order_invariance catalogue
           (insertions catalogue) (rev (insertions catalogue))
           "dune" "All" "All" 1).
  apply Permutation_rev.
Defined.

(** Size of what [search] and [recommend_books] give on the
    recommender of [__init__]; [None], the [IndexError], does not
    occur. *)
Lemma search_init_length df prefix :
  List.length (search (trie (TrieBasedRecommender_init df)) prefix)
  <= token_count df.
Proof.
  rewrite (Permutation_length (search_init df prefix)).
  apply matching_length.
Qed.

Lemma recommend_books_init_length df search_query author genre_ min_rating :
  exists out,
    recommend_books (TrieBasedRecommender_init df)
      search_query author genre_ min_rating = Some out
    /\ List.length out <= Nat.max (len df) (token_count df).
Proof.
  unfold recommend_books, recommended_indices.
  change (books_df (TrieBasedRecommender_init df)) with df.
  rewrite recommended_resolve.
  destruct (negb (Py.truthy (Py.strip search_query))).
  - rewrite resolve_seq. eexists. split; [reflexivity|].
    rewrite (Permutation_length (sort_reverse_perm _ _)).
    pose proof (filter_length_le (passes author genre_ min_rating)
                  (rows df)).
    unfold len. lia.
  - destruct (resolve_search_init df (Py.lower search_query))
      as (bs & Hres & _).
    rewrite Hres. eexists. split; [reflexivity|].
    rewrite (Permutation_length (sort_reverse_perm _ _)).
    pose proof (filter_length_le (passes author genre_ min_rating) bs).
    pose proof (resolve_length _ _ _ Hres).
    pose proof (search_init_length df (Py.lower search_query)). lia.
Qed.

(** C10.  [search] does not normalise case.  On the trie built by
    [__init__], whose words are lower-cased, [search] with a prefix that
    contains an upper-case ASCII letter returns the empty list.  The
    public interface does not depend on the case of the query because
    [recommend_books] lower-cases it first: a query and its lower-cased
    form have the same result. *)
Theorem search_is_case_sensitive (df : DataFrame) (P : string) :
  existsb Py.is_ascii_upper (Py.chars P) = true ->
  search (trie (TrieBasedRecommender_init df)) P = []
  /\ (forall self search_query author genre_ min_rating,
        recommend_books self search_query author genre_ min_rating
        = recommend_books self (Py.lower search_query)
            author genre_ min_rating).
Proof.
  intros Hup. split.
  - apply Permutation_nil. symmetry.
    rewrite (search_init df P).
    rewrite matching_none; [reflexivity|].
    intros [w i] Hin. simpl.
    destruct (String.prefix P w) eqn:E; [|reflexivity].
    apply existsb_exists in Hup as (c & Hc & Hu).
    apply insertions_words in Hin as (b & Hw).
    pose proof (prefix_chars P w E c Hc) as Hcw.
    now rewrite (existsb_false_In _ _ _ (words_no_upper b w Hw) Hcw) in Hu.
  - intros self q author genre_ min_rating.
    unfold recommend_books, recommended_indices.
    now rewrite !truthy_strip, blank_lower, lower_idem.
Qed.

Lemma search_is_case_sensitive_witness :
  search (trie (TrieBasedRecommender_init catalogue)) "Dune" = []
  /\ (forall self search_query author genre_ min_rating,
        recommend_books self search_query author genre_ min_rating
        = recommend_books self (Py.lower search_query)
            author genre_ min_rating).
Proof.
  apply (search_is_case_sensitive catalogue "Dune").
  reflexivity.
Defined.

(** The scenarios of the specification. *)
Example scenario_dune :
  option_map (map title)
    (recommend_books (TrieBasedRecommender_init catalogue)
       "dune" "All" "All" 1)
  = Some ["Dune"; "Dune Messiah"].
Proof. reflexivity. Qed.

Example scenario_blank_min_4 :
  option_map (map title)
    (recommend_books (TrieBasedRecommender_init catalogue)
       "" "All" "All" 4)
  = Some ["Emma"; "Dune"].
Proof. reflexivity. Qed.

Example scenario_zzz :
  recommend_books (TrieBasedRecommender_init catalogue)
    "zzz" "All" "All" 1
  = Some [].
Proof. reflexivity. Qed.

Example upper_case_query :
  search (trie (TrieBasedRecommender_init catalogue)) "DUNE" = []
  /\ option_map (map title)
       (recommend_books (TrieBasedRecommender_init catalogue)
          "DUNE" "All" "All" 1)
     = Some ["Dune"; "Dune Messiah"].
Proof. split; reflexivity. Qed.

(** * Further properties of the code *)

(** ** The trie: [insert], [search] and [_collect_indices] *)

Lemma dict_set_In char v d : In (char, v) (dict_set char v d).
Proof.
  induction d as [|[k w] d IH]; simpl; [now left|].
  destruct (Ascii.eqb k char) eqn:E.
  - apply Ascii.eqb_eq in E. subst. now left.
  - now right.
Qed.

Lemma dict_set_In_inv char v d k child :
  In (k, child) (dict_set char v d) ->
  (k = char /\ child = v) \/ In (k, child) d.
Proof.
  induction d as [|[k' w] d IH]; simpl.
  - intros [[= <- <-]|[]]. now left.
  - destruct (Ascii.eqb k' char) eqn:E.
    + apply Ascii.eqb_eq in E. subst.
      intros [[= <- <-]|H]; [now left | now right; right].
    + intros [H|H]; [now right; left|].
      destruct (IH H) as [?|?]; [now left | now right; right].
Qed.

Lemma dict_get_In char d child :
  dict_get char d = Some child -> In (char, child) d.
Proof.
  induction d as [|[k w] d IH]; simpl; [discriminate|].
  destruct (Ascii.eqb k char) eqn:E.
  - apply Ascii.eqb_eq in E. subst. intros [= ->]. now left.
  - intros H. right. now apply IH.
Qed.

Lemma dict_get_None char d :
  dict_get char d = None -> ~ In char (map fst d).
Proof.
  induction d as [|[k w] d IH]; simpl; [tauto|].
  destruct (Ascii.eqb k char) eqn:E; [discriminate|].
  apply Ascii.eqb_neq in E. intros H [?|?]; [congruence | now apply IH].
Qed.

Lemma dict_set_keys char v d :
  map fst (dict_set char v d)
  = match dict_get char d with
    | Some _ => map fst d
    | None => (map fst d ++ [char])%list
    end.
Proof.
  induction d as [|[k w] d IH]; simpl; [reflexivity|].
  destruct (Ascii.eqb k char) eqn:E; simpl; [reflexivity|].
  rewrite IH. now destruct (dict_get char d).
Qed.

Lemma collect_insert_from_In word index :
  forall node, In index (_collect_indices (insert_from word index node)).
Proof.
  induction word as [|c w IH]; intros [ch e idxs]; simpl.
  - apply in_or_app. left. apply in_or_app. right. now left.
  - apply in_or_app. right. apply in_flat_map.
    exists (c, insert_from w index (child_or_new c ch)).
    split; [apply dict_set_In | apply IH].
Qed.

Lemma well_formed_child_or_new char ch :
  (forall k child, In (k, child) ch ->
                   well_formed child /\ _collect_indices child <> []) ->
  well_formed (child_or_new char ch).
Proof.
  intros H. unfold child_or_new.
  destruct (dict_get char ch) as [child|] eqn:E.
  - apply dict_get_In in E. now apply (H char child).
  - constructor; [constructor | split; [discriminate | congruence] |].
    intros k child [].
Qed.

Lemma well_formed_insert_from word index :
  forall node, well_formed node ->
               well_formed (insert_from word index node).
Proof.
  induction word as [|c w IH]; intros node Hwf;
    destruct Hwf as [ch e idxs Hkeys Hflag Hsub]; simpl.
  - constructor; auto. split; [|reflexivity].
    intros _. now destruct idxs.
  - constructor; auto.
    + rewrite dict_set_keys.
      destruct (dict_get c ch) eqn:E; [assumption|].
      apply NoDup_app; [assumption | repeat constructor; tauto |].
      intros x Hx [<-|[]]. now apply dict_get_None in E.
    + intros k child Hin.
      apply dict_set_In_inv in Hin as [[-> ->]|Hin];
        [|now apply (Hsub k child)].
      split.
      * apply IH. now apply well_formed_child_or_new.
      * intros Hnil.
        pose proof (collect_insert_from_In w index (child_or_new c ch)) as Hi.
        now rewrite Hnil in Hi.
Qed.

Lemma well_formed_insert_all ps :
  forall t, well_formed (root t) -> well_formed (root (insert_all t ps)).
Proof.
  induction ps as [|[w i] ps IH]; intros t H; simpl; auto.
  apply IH. simpl. now apply well_formed_insert_from.
Qed.

Lemma well_formed_walk prefix :
  forall char node sub,
    well_formed node -> walk (String char prefix) node = Some sub ->
    well_formed sub /\ _collect_indices sub <> [].
Proof.
  induction prefix as [|c p IH]; intros char node sub Hwf;
    destruct Hwf as [ch e idxs Hkeys Hflag Hsub]; simpl.
  - destruct (dict_get char ch) as [child|] eqn:E; [|discriminate].
    intros [= <-]. apply (Hsub char). now apply dict_get_In.
  - destruct (dict_get char ch) as [child|] eqn:E; [|discriminate].
    apply dict_get_In, Hsub in E as [Hc _]. intros H.
    now apply (IH c child).
Qed.

Lemma matching_empty_prefix ps : matching "" ps = map snd ps.
Proof.
  unfold matching. induction ps as [|[w i] ps IH]; simpl; [reflexivity|].
  destruct w; simpl; now rewrite IH.
Qed.

Lemma matching_In prefix ps index :
  In index (matching prefix ps) <->
  exists word, In (word, index) ps /\ String.prefix prefix word = true.
Proof.
  unfold matching. rewrite in_map_iff. split.
  - intros ([w i] & <- & H). apply filter_In in H as [H1 H2].
    now exists w.
  - intros (w & H1 & H2). exists (w, index). split; [reflexivity|].
    now apply filter_In.
Qed.

Lemma search_insertions_perm ps prefix :
  Permutation (search (insert_all Trie_init ps) prefix)
              (matching prefix ps).
Proof.
  rewrite search_insert_all by reflexivity.
  now rewrite search_new_node.
Qed.

Lemma well_formed_new_node : well_formed TrieNode_init.
Proof.
  constructor; [constructor | split; [discriminate | congruence] |].
  intros k child [].
Qed.

Lemma well_formed_insertions ps :
  well_formed (root (insert_all Trie_init ps)).
Proof. apply well_formed_insert_all, well_formed_new_node. Qed.

(** X1.  After any sequence of insertions into the empty trie,
    [search prefix] returns, in some order, exactly one index for every
    inserted (word, index) pair whose word starts with [prefix]:
    nothing is lost, nothing is added and nothing is merged. *)
Theorem search_after_insertions (ps : list (string * nat))
  (prefix : string) :
  Permutation (search (insert_all Trie_init ps) prefix)
              (matching prefix ps).
Proof. apply search_insertions_perm. Qed.

(** X2.  Round trip of [insert] and [search], on any trie at all: after
    [insert word index], [search] with any prefix of [word] (the word
    itself and the empty prefix included) returns [index]. *)
Theorem insert_then_search (t : Trie) (word prefix : string)
  (index : nat) :
  String.prefix prefix word = true ->
  In index (search (insert t word index) prefix).
Proof.
  destruct t as [node]. unfold insert; cbn [root].
  revert prefix node.
  induction word as [|a w IH]; intros [|c p] node H.
  - apply (collect_insert_from_In "" index node).
  - discriminate H.
  - apply (collect_insert_from_In (String a w) index node).
  - cbn [String.prefix] in H.
    destruct (ascii_dec c a) as [->|]; [|discriminate].
    destruct node as [ch e idxs]. cbn [insert_from children].
    rewrite search_cons. cbn [children].
    rewrite dict_get_set_same. now apply IH.
Qed.

Lemma insert_then_search_witness :
  In 7 (search (insert (trie (TrieBasedRecommender_init catalogue))
                  "messenger" 7) "mess").
Proof.
  apply (insert_then_search _ "messenger" "mess" 7).
  reflexivity.
Defined.

(** X3.  [insert] changes nothing for the other prefixes: when
    [prefix] is not a prefix of the inserted word, [search prefix]
    returns the same list, in the same order, as before. *)
Theorem insert_keeps_other_prefixes (t : Trie) (word prefix : string)
  (index : nat) :
  String.prefix prefix word = false ->
  search (insert t word index) prefix = search t prefix.
Proof.
  destruct t as [node]. unfold insert; cbn [root].
  revert prefix node.
  induction word as [|a w IH]; intros [|c p] node H.
  - discriminate H.
  - now destruct node.
  - discriminate H.
  - cbn [String.prefix] in H.
    destruct node as [ch e idxs]. cbn [insert_from children].
    rewrite !search_cons. cbn [children].
    destruct (ascii_dec c a) as [->|Hne].
    + rewrite dict_get_set_same, (IH p _ H).
      unfold child_or_new.
      destruct (dict_get a ch); [reflexivity | apply search_new_node].
    + now rewrite dict_get_set_other.
Qed.

Lemma insert_keeps_other_prefixes_witness :
  search (insert (trie (TrieBasedRecommender_init catalogue))
            "messenger" 7) "du"
  = search (trie (TrieBasedRecommender_init catalogue)) "du".
Proof.
  apply (insert_keeps_other_prefixes _ "messenger" "du" 7).
  reflexivity.
Defined.

(** X4.  Every trie built by insertions into the empty trie is well
    formed: in every node the keys of [children] are distinct, [is_end]
    is set exactly when [book_indices] is not empty, and every child
    has an index below it. *)
Theorem built_trie_well_formed (ps : list (string * nat)) :
  well_formed (root (insert_all Trie_init ps)).
Proof. apply well_formed_insertions. Qed.

(** X5.  A built trie has no dead branch: for a prefix that is not
    empty, the walk of [search] fails exactly when no inserted word
    starts with the prefix, and exactly then [search] returns the empty
    list. *)
Theorem walk_fails_iff_no_word (ps : list (string * nat))
  (char : ascii) (rest : string) :
  let prefix := String char rest in
  (walk prefix (root (insert_all Trie_init ps)) = None <->
   forall word index, In (word, index) ps ->
                      String.prefix prefix word = false)
  /\ (walk prefix (root (insert_all Trie_init ps)) = None <->
      search (insert_all Trie_init ps) prefix = []).
Proof.
  intros prefix.
  assert (Hempty : search (insert_all Trie_init ps) prefix = [] <->
                   forall word index, In (word, index) ps ->
                                      String.prefix prefix word = false).
  { split.
    - intros Hs word index Hin.
      destruct (String.prefix prefix word) eqn:E; [|reflexivity].
      assert (Hm : In index (matching prefix ps))
        by (apply matching_In; now exists word).
      apply (Permutation_in index
               (Permutation_sym (search_insertions_perm ps prefix))) in Hm.
      now rewrite Hs in Hm.
    - intros Hno. apply Permutation_nil. symmetry.
      rewrite (search_insertions_perm ps prefix).
      rewrite matching_none; [reflexivity|].
      intros [w i] Hin. now apply (Hno w i). }
  assert (Hwalk : walk prefix (root (insert_all Trie_init ps)) = None <->
                  search (insert_all Trie_init ps) prefix = []).
  { unfold search.
    destruct (walk prefix (root (insert_all Trie_init ps))) as [sub|] eqn:E.
    - split; [discriminate|]. intros Hnil. exfalso.
      apply (well_formed_walk rest char _ sub
               (well_formed_insertions ps)) in E.
      now destruct E.
    - tauto. }
  split; [|exact Hwalk]. now rewrite Hwalk.
Qed.

(** X6.  The empty prefix: [search ""] on a built trie returns every
    inserted index, once per insertion. *)
Theorem search_empty_prefix (ps : list (string * nat)) :
  Permutation (search (insert_all Trie_init ps) "") (map snd ps)
  /\ List.length (search (insert_all Trie_init ps) "") = List.length ps.
Proof.
  assert (H : Permutation (search (insert_all Trie_init ps) "")
                          (map snd ps)).
  { rewrite <- matching_empty_prefix. apply search_insertions_perm. }
  split; [exact H|].
  now rewrite (Permutation_length H), length_map.
Qed.

Lemma prefix_trans p1 :
  forall p2 word,
    String.prefix p1 p2 = true -> String.prefix p2 word = true ->
    String.prefix p1 word = true.
Proof.
  induction p1 as [|a p1 IH]; intros [|b p2] [|c w] H1 H2;
    try reflexivity; try discriminate.
  cbn [String.prefix] in *.
  destruct (ascii_dec a b) as [->|]; [|discriminate].
  destruct (ascii_dec b c) as [->|]; [|discriminate].
  eauto.
Qed.

Lemma count_matching_le p1 p2 ps index :
  String.prefix p1 p2 = true ->
  count_occ Nat.eq_dec (matching p2 ps) index
  <= count_occ Nat.eq_dec (matching p1 ps) index.
Proof.
  intros H. unfold matching.
  induction ps as [|[w i] ps IH]; simpl; [lia|].
  destruct (String.prefix p2 w) eqn:E2.
  - rewrite (prefix_trans p1 p2 w H E2). simpl.
    destruct (Nat.eq_dec i index); lia.
  - destruct (String.prefix p1 w); simpl; [|exact IH].
    destruct (Nat.eq_dec i index); lia.
Qed.

(** X7.  A longer prefix never finds more: on a built trie, when
    [p1] is a prefix of [p2], every index is returned by [search p2] at
    most as often as by [search p1]. *)
Theorem longer_prefix_narrows (ps : list (string * nat))
  (p1 p2 : string) (index : nat) :
  String.prefix p1 p2 = true ->
  count_occ Nat.eq_dec (search (insert_all Trie_init ps) p2) index
  <= count_occ Nat.eq_dec (search (insert_all Trie_init ps) p1) index.
Proof.
  intros H.
  rewrite !(perm_count Nat.eq_dec _ _ _ (search_insertions_perm ps _)).
  now apply count_matching_le.
Qed.

Lemma longer_prefix_narrows_witness :
  count_occ Nat.eq_dec
    (search (insert_all Trie_init (insertions shelf)) "time") 0
  <= count_occ Nat.eq_dec
       (search (insert_all Trie_init (insertions shelf)) "t") 0.
Proof.
  apply (longer_prefix_narrows (insertions shelf) "t" "time" 0).
  reflexivity.
Defined.

(** ** The index built by [__init__] *)

Lemma split_from_words s :
  forall cur w,
    In w (Py.split_from cur s) ->
    existsb Py.isspace (Py.chars cur) = false ->
    w <> "" /\ existsb Py.isspace (Py.chars w) = false.
Proof.
  induction s as [|a s IH]; simpl; intros cur w Hw Hcur.
  - destruct cur; simpl in Hw; [contradiction|].
    destruct Hw as [<-|[]]. split; [discriminate | exact Hcur].
  - destruct (Py.isspace a) eqn:Ea.
    + destruct cur; simpl in Hw.
      * now apply (IH "").
      * destruct Hw as [<-|Hw]; [split; [discriminate | exact Hcur]|].
        now apply (IH "").
    + apply (IH _ _ Hw). rewrite chars_app, existsb_app, Hcur. simpl.
      now rewrite Ea.
Qed.

Lemma words_shape b w :
  In w (words b) ->
  w <> "" /\ existsb Py.isspace (Py.chars w) = false.
Proof. intros H. now apply (split_from_words _ "" w H). Qed.

Lemma root_after_insertions ps :
  forall t,
    (forall word index, In (word, index) ps -> word <> "") ->
    is_end (root (insert_all t ps)) = is_end (root t)
    /\ book_indices (root (insert_all t ps)) = book_indices (root t).
Proof.
  induction ps as [|[w i] ps IH]; intros t H; simpl; [tauto|].
  destruct (IH (insert t w i)) as [-> ->].
  - intros word index Hin. apply (H word index). now right.
  - assert (w <> "") by (apply (H w i); now left).
    destruct w; [congruence|]. now destruct t as [[ch e idxs]].
Qed.

(** X8.  The words [__init__] puts into the trie are never empty and
    contain neither a white-space character nor an upper-case ASCII
    letter; so the empty-word case of [insert] does not occur and the
    root of the built trie is not marked and holds no index. *)
Theorem indexed_words_shape (df : DataFrame) :
  (forall word index,
      In (word, index) (insertions df) ->
      word <> ""
      /\ existsb Py.isspace (Py.chars word) = false
      /\ existsb Py.is_ascii_upper (Py.chars word) = false)
  /\ is_end (root (trie (TrieBasedRecommender_init df))) = false
  /\ book_indices (root (trie (TrieBasedRecommender_init df))) = [].
Proof.
  assert (H : forall word index,
             In (word, index) (insertions df) ->
             word <> ""
             /\ existsb Py.isspace (Py.chars word) = false
             /\ existsb Py.is_ascii_upper (Py.chars word) = false).
  { intros word index Hin.
    apply insertions_words in Hin as (b & Hw).
    destruct (words_shape b word Hw) as [H1 H2].
    split; [exact H1|]. split; [exact H2|]. now apply (words_no_upper b). }
  split; [exact H|].
  rewrite init_trie_insert_all.
  apply (root_after_insertions (insertions df) Trie_init).
  intros word index Hin. now apply (H word index).
Qed.

Lemma occurrences_pos_iff prefix b :
  0 < occurrences prefix b <->
  exists word, In word (words b) /\ String.prefix prefix word = true.
Proof.
  split.
  - unfold occurrences. intros H.
    destruct (filter (String.prefix prefix) (words b)) as [|w l] eqn:E;
      [simpl in H; lia|].
    exists w. apply (filter_In (String.prefix prefix)).
    rewrite E. now left.
  - intros (w & Hw & Hp). now apply (occurrences_pos prefix b w).
Qed.

(** X9.  [search] on the built trie is sound: every index it returns
    is the index of a row of the frame (so [iloc] will not raise) that
    has a word starting with the prefix. *)
Theorem search_sound (df : DataFrame) (prefix : string) (idx : nat) :
  In idx (search (trie (TrieBasedRecommender_init df)) prefix) ->
  exists b word,
    iloc df idx = Some b
    /\ In word (words b)
    /\ String.prefix prefix word = true.
Proof.
  intros Hin.
  apply (Permutation_in idx (search_init df prefix)) in Hin.
  apply (count_occ_In Nat.eq_dec) in Hin.
  rewrite count_matching in Hin.
  destruct (iloc df idx) as [b|]; [|lia].
  apply occurrences_pos_iff in Hin as (w & Hw & Hp).
  now exists b, w.
Qed.

Lemma search_sound_witness :
  exists b word,
    iloc catalogue 1 = Some b
    /\ In word (words b)
    /\ String.prefix "mes" word = true.
Proof.
  apply (search_sound catalogue "mes" 1).
  vm_compute. left; reflexivity.
Defined.

(** ** [recommend_books] *)

Lemma In_repeated (f : book -> nat) b l :
  In b (flat_map (fun x => repeat x (f x)) l) <-> In b l /\ 0 < f b.
Proof.
  rewrite in_flat_map. split.
  - intros (x & Hx & Hb).
    assert (b = x) by (now apply repeat_spec in Hb). subst x.
    split; [exact Hx|]. destruct (f b); [contradiction | lia].
  - intros [Hb Hpos]. exists b. split; [exact Hb|].
    destruct (f b); [lia | now left].
Qed.

(** What [recommend_books] returns for a blank query. *)
Lemma recommend_books_blank self search_query author genre_ min_rating :
  forallb Py.isspace (Py.chars search_query) = true ->
  recommend_books self search_query author genre_ min_rating
  = Some (Py.sort_reverse average_rating
            (filter (passes author genre_ min_rating)
               (rows (books_df self)))).
Proof.
  intros Hq. unfold recommend_books, recommended_indices.
  rewrite truthy_strip, Hq. cbn [negb].
  now rewrite recommended_resolve, resolve_seq.
Qed.

(** What it returns on the recommender of [__init__] otherwise. *)
Lemma recommend_books_search df search_query author genre_ min_rating :
  forallb Py.isspace (Py.chars search_query) = false ->
  exists bs,
    recommend_books (TrieBasedRecommender_init df)
      search_query author genre_ min_rating
    = Some (Py.sort_reverse average_rating
              (filter (passes author genre_ min_rating) bs))
    /\ Permutation
         (flat_map
            (fun b => repeat b (occurrences (Py.lower search_query) b))
            (rows df))
         bs.
Proof.
  intros Hq.
  destruct (resolve_search_init df (Py.lower search_query))
    as (bs & Hres & Hperm).
  exists bs. split; [|exact Hperm].
  unfold recommend_books, recommended_indices.
  rewrite truthy_strip, Hq. cbn [negb].
  change (books_df (TrieBasedRecommender_init df)) with df.
  now rewrite recommended_resolve, Hres.
Qed.

Lemma recommend_books_In (df : DataFrame)
  (search_query author genre_ : string) (min_rating : Q) :
  exists out,
    recommend_books (TrieBasedRecommender_init df)
      search_query author genre_ min_rating = Some out
    /\ forall b,
         In b out <->
         In b (rows df)
         /\ passes author genre_ min_rating b = true
         /\ (forallb Py.isspace (Py.chars search_query) = true
             \/ exists word,
                  In word (words b)
                  /\ String.prefix (Py.lower search_query) word = true).
Proof.
  destruct (forallb Py.isspace (Py.chars search_query)) eqn:Hq.
  - rewrite recommend_books_blank by exact Hq.
    eexists. split; [reflexivity|]. intros b.
    change (books_df (TrieBasedRecommender_init df)) with df.
    split.
    + intros H. apply (Permutation_in b (sort_reverse_perm _ _)) in H.
      apply filter_In in H. tauto.
    + intros (H1 & H2 & _).
      apply (Permutation_in b (Permutation_sym (sort_reverse_perm _ _))).
      now apply filter_In.
  - destruct (recommend_books_search df search_query author genre_
                min_rating Hq) as (bs & -> & Hperm).
    eexists. split; [reflexivity|]. intros b.
    split.
    + intros H. apply (Permutation_in b (sort_reverse_perm _ _)) in H.
      apply filter_In in H as [H Hp].
      apply (Permutation_in b (Permutation_sym Hperm)) in H.
      apply In_repeated in H as [Hrow Hpos].
      apply occurrences_pos_iff in Hpos. tauto.
    + intros (H1 & H2 & [H3|H3]); [discriminate|].
      apply (Permutation_in b (Permutation_sym (sort_reverse_perm _ _))).
      apply filter_In. split; [|exact H2].
      apply (Permutation_in b Hperm), In_repeated.
      split; [exact H1 | now apply occurrences_pos_iff].
Qed.

(** X10.  What the list returned by [recommend_books] holds, on the
    recommender of [__init__]: a row is in it exactly when it is a row
    of the frame, passes the three filters and, unless the query is
    blank, has a word that starts with the lower-cased query. *)
Theorem recommend_books_membership (df : DataFrame)
  (search_query author genre_ : string) (min_rating : Q)
  (out : list book) :
  recommend_books (TrieBasedRecommender_init df)
    search_query author genre_ min_rating = Some out ->
  forall b,
    In b out <->
    In b (rows df)
    /\ passes author genre_ min_rating b = true
    /\ (forallb Py.isspace (Py.chars search_query) = true
        \/ exists word,
             In word (words b)
             /\ String.prefix (Py.lower search_query) word = true).
Proof.
  intros Hout.
  destruct (recommend_books_In df search_query author genre_ min_rating)
    as (out' & Hout' & H).
  rewrite Hout in Hout'. injection Hout' as <-. exact H.
Qed.

Lemma recommend_books_membership_witness :
  In (mkBook "Dune Messiah" "Herbert" "Sci-Fi" (38 # 10) [])
     (firstn 2 (rows catalogue)) <->
  In (mkBook "Dune Messiah" "Herbert" "Sci-Fi" (38 # 10) [])
     (rows catalogue)
  /\ passes "All" "All" 1
       (mkBook "Dune Messiah" "Herbert" "Sci-Fi" (38 # 10) []) = true
  /\ (forallb Py.isspace (Py.chars "Dune") = true
      \/ exists word,
           In word
             (words (mkBook "Dune Messiah" "Herbert" "Sci-Fi" (38 # 10) []))
           /\ String.prefix (Py.lower "Dune") word = true).
Proof.
  apply (recommend_books_membership catalogue "Dune" "All" "All" 1
           (firstn 2 (rows catalogue))).
  reflexivity.
Defined.

(** X11.  A blank query does not use the trie at all: for every
    recommender, whatever its trie holds, [recommend_books] returns,
    without raising, all rows of the frame that pass the filters, sorted
    by rating with ties in the order of the frame. *)
Theorem blank_query_lists_frame (self : TrieBasedRecommender)
  (search_query author genre_ : string) (min_rating : Q) :
  forallb Py.isspace (Py.chars search_query) = true ->
  recommend_books self search_query author genre_ min_rating
  = Some (Py.sort_reverse average_rating
            (filter (passes author genre_ min_rating)
               (rows (books_df self)))).
Proof. apply recommend_books_blank. Qed.

Lemma blank_query_lists_frame_witness :
  recommend_books (mkRecommender catalogue Trie_init) "  " "Herbert" "All" 4
  = Some (Py.sort_reverse average_rating
            (filter (passes "Herbert" "All" 4) (rows catalogue))).
Proof.
  apply (blank_query_lists_frame (mkRecommender catalogue Trie_init)
           "  " "Herbert" "All" 4).
  reflexivity.
Defined.

Lemma existsb_lower_isspace s :
  existsb Py.isspace (Py.chars (Py.lower s))
  = existsb Py.isspace (Py.chars s).
Proof.
  induction s as [|c s IH]; simpl; [reflexivity|].
  now rewrite isspace_lower_char, IH.
Qed.

(** X12.  The query is neither stripped nor split before the search: a
    query that is not blank but contains a white-space character (a
    trailing space, two words) finds nothing on the recommender of
    [__init__], whatever the frame holds. *)
Theorem query_with_space_finds_nothing (df : DataFrame)
  (search_query author genre_ : string) (min_rating : Q) :
  forallb Py.isspace (Py.chars search_query) = false ->
  existsb Py.isspace (Py.chars search_query) = true ->
  recommend_books (TrieBasedRecommender_init df)
    search_query author genre_ min_rating = Some [].
Proof.
  intros Hblank Hsp.
  assert (Hs : search (trie (TrieBasedRecommender_init df))
                 (Py.lower search_query) = []).
  { apply Permutation_nil. symmetry.
    rewrite (search_init df (Py.lower search_query)).
    rewrite matching_none; [reflexivity|].
    intros [w i] Hin. simpl.
    destruct (String.prefix (Py.lower search_query) w) eqn:E;
      [|reflexivity].
    rewrite <- existsb_lower_isspace in Hsp.
    apply existsb_exists in Hsp as (c & Hc & Hu).
    apply insertions_words in Hin as (b & Hw).
    pose proof (prefix_chars _ w E c Hc) as Hcw.
    destruct (words_shape b w Hw) as [_ Hno].
    now rewrite (existsb_false_In _ _ _ Hno Hcw) in Hu. }
  unfold recommend_books, recommended_indices.
  rewrite truthy_strip, Hblank. cbn [negb]. now rewrite Hs.
Qed.

Lemma query_with_space_finds_nothing_witness :
  recommend_books (TrieBasedRecommender_init catalogue)
    "dune messiah" "All" "All" 1 = Some [].
Proof.
  apply (query_with_space_finds_nothing catalogue
           "dune messiah" "All" "All" 1); reflexivity.
Defined.

Lemma sort_insert_front {A} (key : A -> Q) x l :
  Forall (fun y => (key y <= key x)%Q) l ->
  Py.sort_insert key x l = x :: l.
Proof.
  intros H. destruct l as [|y l]; [reflexivity|]. simpl.
  inversion H as [|? ? Hy _]; subst.
  apply Qle_bool_iff in Hy. now rewrite Hy.
Qed.

Lemma filter_sort_insert {A} (key : A -> Q) (p : A -> bool) x l :
  Sorted.StronglySorted (non_increasing key) l ->
  filter p (Py.sort_insert key x l)
  = if p x then Py.sort_insert key x (filter p l) else filter p l.
Proof.
  induction 1 as [|y l Hs IH Hall]; simpl.
  - now destruct (p x).
  - destruct (Qle_bool (key y) (key x)) eqn:E.
    + simpl. destruct (p x); [|reflexivity].
      symmetry. apply sort_insert_front.
      apply Qle_bool_iff in E.
      assert (Forall (fun z => (key z <= key x)%Q) (y :: l)).
      { constructor; [exact E|].
        eapply Forall_impl; [|exact Hall].
        intros z Hz. unfold non_increasing in Hz.
        now apply Qle_trans with (key y). }
      apply Forall_forall. intros z Hz.
      rewrite Forall_forall in H. apply H.
      exact (proj1 (proj1 (filter_In p z (y :: l)) Hz)).
    + simpl. rewrite IH.
      destruct (p y); destruct (p x); simpl; try rewrite E; reflexivity.
Qed.

(** Filtering a sorted list and sorting a filtered list agree. *)
Lemma filter_sort_reverse {A} (key : A -> Q) (p : A -> bool) l :
  filter p (Py.sort_reverse key l) = Py.sort_reverse key (filter p l).
Proof.
  induction l as [|x l IH]; simpl; [reflexivity|].
  rewrite filter_sort_insert by apply sort_reverse_strongly_sorted.
  rewrite IH. now destruct (p x).
Qed.

Lemma filter_filter_impl {A} (p q : A -> bool) l :
  (forall x, p x = true -> q x = true) ->
  filter p (filter q l) = filter p l.
Proof.
  intros H. induction l as [|x l IH]; simpl; [reflexivity|].
  destruct (q x) eqn:Eq; simpl; rewrite IH; [reflexivity|].
  destruct (p x) eqn:Ep; [|reflexivity].
  apply H in Ep. congruence.
Qed.

Lemma passes_weaken author genre_ m m' b :
  (m <= m')%Q ->
  passes author genre_ m' b = true -> passes "All" "All" m b = true.
Proof.
  unfold passes. simpl. intros Hm H.
  apply andb_true_iff in H as [_ H]. apply Qle_bool_iff in H.
  apply Qle_bool_iff. now apply Qle_trans with m'.
Qed.

(** X13.  Filtering and sorting commute in [recommend_books]: the
    answer with an author, a genre and a higher minimum rating is the
    answer without them (filters "All", lower minimum) with the rows
    that fail the stricter filters taken out, the others staying in
    their order. *)
Theorem stricter_filters_select (self : TrieBasedRecommender)
  (search_query author genre_ : string) (min_rating min_rating' : Q)
  (out : list book) :
  recommend_books self search_query "All" "All" min_rating = Some out ->
  (min_rating <= min_rating')%Q ->
  recommend_books self search_query author genre_ min_rating'
  = Some (filter (passes author genre_ min_rating') out).
Proof.
  unfold recommend_books. rewrite !recommended_resolve.
  destruct (resolve _ _) as [bs|]; [|discriminate].
  cbn [option_map]. intros [= <-] Hm.
  rewrite filter_sort_reverse, filter_filter_impl; [reflexivity|].
  intros b. now apply passes_weaken.
Qed.

Lemma stricter_filters_select_witness :
  recommend_books (TrieBasedRecommender_init catalogue)
    "dune" "Herbert" "Sci-Fi" 4
  = Some (filter (passes "Herbert" "Sci-Fi" 4)
            (firstn 2 (rows catalogue))).
Proof.
  apply (stricter_filters_select (TrieBasedRecommender_init catalogue)
           "dune" "Herbert" "Sci-Fi" 1 4 (firstn 2 (rows catalogue))).
  - reflexivity.
  - discriminate.
Defined.

(** ** The script: select boxes, dispatch and grid *)

Lemma unique_In l x : In x (unique l) <-> In x l.
Proof.
  induction l as [|a l IH]; simpl; [tauto|].
  rewrite filter_In, IH, negb_true_iff, String.eqb_neq.
  destruct (string_dec a x); tauto.
Qed.

Lemma unique_NoDup l : NoDup (unique l).
Proof.
  induction l as [|a l IH]; simpl; constructor.
  - rewrite filter_In, negb_true_iff, String.eqb_neq. tauto.
  - now apply NoDup_filter.
Qed.

Lemma sorted_insert_perm x l : Permutation (sorted_insert x l) (x :: l).
Proof.
  induction l as [|y l IH]; simpl; [reflexivity|].
  destruct (String.leb x y); [reflexivity|].
  rewrite IH. apply perm_swap.
Qed.

Lemma sorted_perm l : Permutation (sorted l) l.
Proof.
  induction l as [|x l IH]; simpl; [reflexivity|].
  rewrite sorted_insert_perm. now constructor.
Qed.

Lemma sorted_insert_Sorted x l :
  Sorted.Sorted (fun a b => String.leb a b = true) l ->
  Sorted.Sorted (fun a b => String.leb a b = true) (sorted_insert x l).
Proof.
  assert (Hflip : forall a b, String.leb a b = false -> String.leb b a = true).
  { intros a b H. destruct (String.leb_total a b); congruence. }
  induction 1 as [|y l Hs IH Hhd]; simpl.
  - repeat constructor.
  - destruct (String.leb x y) eqn:E.
    + repeat constructor; auto.
    + constructor; auto.
      destruct Hhd as [|z l Hz]; simpl.
      * constructor. now apply Hflip.
      * destruct (String.leb x z); constructor; auto.
Qed.

Lemma sorted_Sorted l :
  Sorted.Sorted (fun a b => String.leb a b = true) (sorted l).
Proof.
  induction l; simpl; [constructor | now apply sorted_insert_Sorted].
Qed.

Lemma Sorted_strict l :
  NoDup l ->
  Sorted.Sorted (fun a b => String.leb a b = true) l ->
  Sorted.Sorted (fun a b => String.ltb a b = true) l.
Proof.
  induction 2 as [|x l Hs IH Hhd]; constructor.
  - apply IH. now inversion H.
  - destruct Hhd as [|y l Hxy]; constructor.
    assert (x <> y).
    { intros ->. inversion H as [|? ? Hnin _]; subst. apply Hnin. now left. }
    unfold String.leb, String.ltb in *.
    destruct (String.compare x y) eqn:E; try reflexivity; try discriminate.
    now apply String.compare_eq_iff in E.
Qed.

Lemma texts_map_text l : texts (map text l) = Some l.
Proof. induction l as [|x l IH]; simpl; [reflexivity | now rewrite IH]. Qed.

Lemma texts_None l : In nan l -> texts l = None.
Proof.
  induction l as [|[x|] l IH]; simpl; [contradiction | | reflexivity].
  intros [H|H]; [discriminate | now rewrite IH].
Qed.

Lemma cell_eqb_eq c1 c2 : cell_eqb c1 c2 = true <-> c1 = c2.
Proof.
  destruct c1 as [s1|], c2 as [s2|]; simpl;
    try (split; [discriminate | discriminate]); try tauto.
  rewrite String.eqb_eq. split; [now intros -> | now intros [= ->]].
Qed.

Lemma unique_cells_In l c : In c (unique_cells l) <-> In c l.
Proof.
  induction l as [|a l IH]; simpl; [tauto|].
  rewrite filter_In, IH, negb_true_iff.
  destruct (cell_eqb a c) eqn:E.
  - apply cell_eqb_eq in E. subst. intuition congruence.
  - assert (a <> c) by (intros ->; now rewrite (proj2 (cell_eqb_eq c c)) in E).
    tauto.
Qed.

Lemma unique_cells_text l : unique_cells (map text l) = map text (unique l).
Proof.
  induction l as [|x l IH]; simpl; [reflexivity|].
  rewrite IH. f_equal. clear IH.
  induction (unique l) as [|y u IHu]; simpl; [reflexivity|].
  destruct (String.eqb x y); simpl; now rewrite IHu.
Qed.

Lemma unique_cells_nan l :
  l <> [] -> (forall c, In c l -> c = nan) -> unique_cells l = [nan].
Proof.
  induction l as [|a l IH]; intros Hne Hall; [congruence|].
  assert (a = nan) by (apply Hall; now left). subst a. simpl.
  f_equal. destruct l as [|b l]; [reflexivity|].
  rewrite IH; [reflexivity | discriminate |].
  intros c Hc. apply Hall. now right.
Qed.

(** X14.  The options of the author and genre select boxes.  For a
    column whose cells are all text, the list is "All" followed by
    exactly the values that occur in the column, each once, in strictly
    increasing order of code points (a value that is literally "All" is
    offered a second time).  For a column with an empty cell (NaN)
    beside a text, building the list raises [TypeError]; a column of
    empty cells only gives "All" and NaN. *)
Theorem select_box_options (column : book -> string) (df : DataFrame)
  (series : list cell) :
  select_options (map text (map column (rows df)))
  = Some (map text (options column df))
  /\ hd_error (options column df) = Some "All"
  /\ (forall o, In o (tl (options column df)) <->
                exists b, In b (rows df) /\ column b = o)
  /\ Sorted.Sorted (fun a b => String.ltb a b = true)
       (tl (options column df))
  /\ (In nan series -> (exists s, In (text s) series) ->
      select_options series = None)
  /\ (series <> [] -> (forall c, In c series -> c = nan) ->
      select_options series = Some [text "All"; nan]).
Proof.
  split; [|split; [|split; [|split; [|split]]]].
  - unfold select_options, sorted_cells, options.
    now rewrite unique_cells_text, texts_map_text.
  - reflexivity.
  - unfold options. cbn [tl]. intros o. split.
    + intros H. apply (Permutation_in o (sorted_perm _)) in H.
      apply unique_In, in_map_iff in H as (b & Hb & Hin). now exists b.
    + intros (b & Hin & <-).
      apply (Permutation_in _ (Permutation_sym (sorted_perm _))).
      apply unique_In, in_map. exact Hin.
  - unfold options. cbn [tl].
    apply Sorted_strict; [|apply sorted_Sorted].
    apply (Permutation_NoDup (Permutation_sym (sorted_perm _))).
    apply unique_NoDup.
  - intros Hnan (x & Hx). unfold select_options, sorted_cells.
    rewrite texts_None by (now apply unique_cells_In).
    assert (E : forallb is_nan (unique_cells series) = false).
    { apply Bool.not_true_iff_false. intros H.
      rewrite forallb_forall in H.
      now specialize (H (text x) (proj2 (unique_cells_In _ _) Hx)). }
    now rewrite E.
  - intros Hne Hall. unfold select_options.
    now rewrite (unique_cells_nan series Hne Hall).
Qed.

Lemma select_box_options_witness :
  select_options [text "Herbert"; nan; text "Austen"] = None
  /\ select_options [nan; nan] = Some [text "All"; nan].
Proof.
  pose proof (select_box_options authors catalogue
                [text "Herbert"; nan; text "Austen"])
    as (_ & _ & _ & _ & Hmixed & _).
  pose proof (select_box_options authors catalogue [nan; nan])
    as (_ & _ & _ & _ & _ & Hnan).
  split.
  - apply Hmixed; [right; left; reflexivity|].
    exists "Herbert". left; reflexivity.
  - apply Hnan; [discriminate|].
    intros c [<-|[<-|[]]]; reflexivity.
Defined.

Lemma passes_all_all m b :
  passes "All" "All" m b = Qle_bool m (average_rating b).
Proof. reflexivity. Qed.

(** X15.  The dispatch of the script, for any recommender.  With Reset
    pressed and Apply not, whatever the widgets hold, and likewise with
    nothing pressed, an empty query, both filters "All" and the slider
    at 1 (or below), the whole frame is listed in the order of the
    frame, unsorted and unfiltered.  With Apply pressed on the same
    values, or with a query of white space typed, the rows with the
    minimum rating are listed, sorted by rating. *)
Theorem dispatch_idle_and_apply (recommender : TrieBasedRecommender) :
  (forall search_query selected_author selected_genre selected_rating,
      get_recommendations recommender false true
        search_query selected_author selected_genre selected_rating
      = Some (rows (books_df recommender)))
  /\ (forall selected_rating,
        (selected_rating <= 1)%Z ->
        get_recommendations recommender false false
          "" "All" "All" selected_rating
        = Some (rows (books_df recommender)))
  /\ (forall reset search_query selected_rating,
        forallb Py.isspace (Py.chars search_query) = true ->
        get_recommendations recommender true reset
          search_query "All" "All" selected_rating
        = Some (Py.sort_reverse average_rating
                  (filter
                     (fun b =>
                        Qle_bool
                          (inject_Z (if reset then 1%Z else selected_rating))
                          (average_rating b))
                     (rows (books_df recommender)))))
  /\ (forall search_query selected_rating,
        search_query <> "" ->
        forallb Py.isspace (Py.chars search_query) = true ->
        get_recommendations recommender false false
          search_query "All" "All" selected_rating
        = Some (Py.sort_reverse average_rating
                  (filter
                     (fun b =>
                        Qle_bool (inject_Z selected_rating)
                          (average_rating b))
                     (rows (books_df recommender))))).
Proof.
  split; [reflexivity|]. split; [|split].
  - intros n Hn. unfold get_recommendations. simpl.
    destruct (Z.ltb_spec 1 n); [lia | reflexivity].
  - intros reset q n Hq. unfold get_recommendations. cbn [orb].
    destruct reset.
    + now rewrite recommend_books_blank.
    + now rewrite recommend_books_blank.
  - intros q n Hne Hq. unfold get_recommendations.
    destruct q as [|c q]; [congruence|]. cbn [Py.truthy orb].
    now rewrite recommend_books_blank.
Qed.

Lemma succ_mod_3 s : S s mod 3 = S (s mod 3) mod 3.
Proof.
  change (S s) with (1 + s). change (S (s mod 3)) with (1 + s mod 3).
  now rewrite Nat.Div0.add_mod_idemp_r.
Qed.

(** Column [c] of the cells numbered from [s] on: the books at the
    distances 0, 3, 6, ... from the first number congruent to [c]. *)
Lemma grid_column_from c books :
  forall s k,
    c < 3 ->
    nth_error
      (map snd
         (filter (fun p => fst p =? c)
            (map (fun p : nat * book => (fst p mod 3, snd p))
               (combine (seq s (List.length books)) books)))) k
    = nth_error books (3 * k + (c + 3 - s mod 3) mod 3).
Proof.
  induction books as [|b bs IH]; intros s k Hc.
  - simpl. now rewrite !nth_error_nil.
  - cbn [List.length seq combine map filter fst snd].
    specialize (IH (S s)). rewrite succ_mod_3 in IH.
    assert (Hr : s mod 3 < 3) by (apply Nat.mod_upper_bound; lia).
    destruct (s mod 3) as [|[|[|r]]]; [| | |lia];
      destruct c as [|[|[|c]]]; try lia;
      cbn [Nat.eqb Nat.modulo Nat.divmod Nat.sub Nat.add fst snd map]
        in IH |- *;
      try (destruct k as [|k]; [reflexivity | cbn [nth_error]]);
      rewrite IH by lia;
      match goal with
      | |- nth_error bs ?X = nth_error (b :: bs) ?Y =>
          replace Y with (S X) by lia; reflexivity
      end.
Qed.

(** X17.  The grid view fills its three columns row by row: the book
    in place [k] of column [c] is the book in place [3 * k + c] of the
    list, and a column ends where the list does. *)
Theorem grid_fills_row_by_row (recommended_books : list book)
  (c k : nat) :
  c < 3 ->
  nth_error (grid_column c recommended_books) k
  = nth_error recommended_books (3 * k + c).
Proof.
  intros Hc. unfold grid_column, grid_cells, enumerate.
  rewrite grid_column_from by exact Hc.
  destruct c as [|[|[|c]]]; [reflexivity | reflexivity | reflexivity | lia].
Qed.

Lemma grid_fills_row_by_row_witness :
  nth_error (grid_column 1 (rows shelf)) 0 = nth_error (rows shelf) (3 * 0 + 1).
Proof.
  apply (grid_fills_row_by_row (rows shelf) 1 0). lia.
Defined.

(** ** Depth of the recursion *)

Lemma list_max_dict_set char v d :
  list_max (map (fun kv => depth (snd kv)) (dict_set char v d))
  <= Nat.max (list_max (map (fun kv => depth (snd kv)) d)) (depth v).
Proof.
  unfold list_max.
  induction d as [|[k w] d IH]; simpl; [lia|].
  destruct (Ascii.eqb k char); simpl; lia.
Qed.

Lemma depth_child_or_new char d :
  depth (child_or_new char d)
  <= Nat.max (list_max (map (fun kv => depth (snd kv)) d)) 1.
Proof.
  unfold child_or_new, list_max.
  induction d as [|[k w] d IH]; simpl; [lia|].
  destruct (Ascii.eqb k char); simpl in *; lia.
Qed.

Lemma depth_insert_from word index :
  forall node,
    depth (insert_from word index node)
    <= Nat.max (depth node) (S (String.length word)).
Proof.
  induction word as [|c w IH]; intros [ch e idxs]; simpl; [lia|].
  pose proof (list_max_dict_set c
                (insert_from w index (child_or_new c ch)) ch) as H1.
  pose proof (IH (child_or_new c ch)) as H2.
  pose proof (depth_child_or_new c ch) as H3.
  lia.
Qed.

(** X18.  The recursion of [_collect_indices] on a built trie is at
    most one call deeper than the longest inserted word is long. *)
Theorem recursion_depth_bounded (ps : list (string * nat)) :
  depth (root (insert_all Trie_init ps))
  <= S (list_max (map (fun p => String.length (fst p)) ps)).
Proof.
  assert (H : forall t,
             depth (root (insert_all t ps))
             <= Nat.max (depth (root t))
                  (S (list_max (map (fun p => String.length (fst p)) ps)))).
  { unfold list_max.
    induction ps as [|[w i] ps IH]; intros t; simpl; [lia|].
    specialize (IH (insert t w i)). simpl in IH.
    pose proof (depth_insert_from w i (root t)). lia. }
  specialize (H Trie_init). simpl in H. lia.
Qed.

Lemma dispatch_idle_and_apply_witness :
  get_recommendations (TrieBasedRecommender_init catalogue) false false
    "" "All" "All" 1
  = Some (rows catalogue)
  /\ get_recommendations (TrieBasedRecommender_init catalogue) false false
       " " "All" "All" 4
     = Some (Py.sort_reverse average_rating
               (filter (fun b => Qle_bool (inject_Z 4) (average_rating b))
                  (rows catalogue))).
Proof.
  pose proof (dispatch_idle_and_apply (TrieBasedRecommender_init catalogue))
    as (_ & Hidle & _ & Hspace).
  split.
  - apply (Hidle 1%Z). lia.
  - apply (Hspace " " 4%Z); [discriminate | reflexivity].
Defined.

(** ** The limit on nested calls *)

Lemma extend_all_depth limit (f : TrieNode -> option (list nat)) ch :
  (forall kv, In kv ch ->
     f (snd kv)
     = if depth (snd kv) <=? limit
       then Some (_collect_indices (snd kv)) else None) ->
  forall indices,
    extend_all f ch indices
    = if list_max (map (fun kv => depth (snd kv)) ch) <=? limit
      then Some (indices
                 ++ flat_map (fun kv => _collect_indices (snd kv)) ch)
      else None.
Proof.
  unfold list_max.
  induction ch as [|kv ch IH]; intros Hf indices; simpl.
  - now rewrite app_nil_r.
  - rewrite (Hf kv) by now left.
    destruct (Nat.leb_spec (depth (snd kv)) limit) as [Hk|Hk].
    + rewrite IH by (intros kv' Hin; apply Hf; now right).
      destruct (Nat.leb_spec
                  (fold_right Nat.max 0
                     (map (fun kv => depth (snd kv)) ch)) limit);
        destruct (Nat.leb_spec
                    (Nat.max (depth (snd kv))
                       (fold_right Nat.max 0
                          (map (fun kv => depth (snd kv)) ch))) limit);
        try lia; [now rewrite app_assoc | reflexivity].
    + destruct (Nat.leb_spec
                  (Nat.max (depth (snd kv))
                     (fold_right Nat.max 0
                        (map (fun kv => depth (snd kv)) ch))) limit);
        [lia | reflexivity].
Qed.

(** Under the limit [_collect_indices] returns its list exactly when
    the tree below the node is not deeper than the limit. *)
Lemma collect_within_depth limit :
  forall node,
    _collect_indices_within limit node
    = if depth node <=? limit then Some (_collect_indices node) else None.
Proof.
  induction limit as [|limit IH]; intros [ch e idxs].
  - reflexivity.
  - cbn [_collect_indices_within depth _collect_indices Nat.leb].
    apply extend_all_depth. intros kv _. apply IH.
Qed.

Lemma depth_dict_get char d ch :
  dict_get char d = Some ch ->
  depth ch <= list_max (map (fun kv => depth (snd kv)) d).
Proof.
  unfold list_max.
  induction d as [|[k w] d IH]; simpl; [discriminate|].
  destruct (Ascii.eqb k char).
  - intros [= ->]. lia.
  - intros H. apply IH in H. lia.
Qed.

Lemma depth_walk prefix : forall node sub,
  walk prefix node = Some sub -> depth sub <= depth node.
Proof.
  induction prefix as [|c p IH]; intros [ch e idxs] sub.
  - now intros [= <-].
  - cbn [walk children].
    destruct (dict_get c ch) as [child|] eqn:E; [|discriminate].
    intros H. apply IH in H. apply depth_dict_get in E.
    cbn [depth]. lia.
Qed.

Lemma depth_insert_all ps : forall t,
  depth (root (insert_all t ps))
  <= Nat.max (depth (root t))
       (S (list_max (map (fun p => String.length (fst p)) ps))).
Proof.
  unfold list_max.
  induction ps as [|[w i] ps IH]; intros t; simpl; [lia|].
  specialize (IH (insert t w i)). simpl in IH.
  pose proof (depth_insert_from w i (root t)). lia.
Qed.

Lemma depth_init df :
  depth (root (trie (TrieBasedRecommender_init df))) <= S (longest_word df).
Proof.
  rewrite init_trie_insert_all. unfold longest_word.
  pose proof (depth_insert_all (insertions df) Trie_init) as H.
  simpl in H. lia.
Qed.

Lemma search_within_depth limit t prefix :
  depth (root t) <= limit ->
  search_within limit t prefix = Some (search t prefix).
Proof.
  intros H. unfold search_within, search.
  destruct (walk prefix (root t)) as [sub|] eqn:E; [|reflexivity].
  rewrite collect_within_depth.
  apply depth_walk in E.
  destruct (Nat.leb_spec (depth sub) limit); [reflexivity | lia].
Qed.

Lemma recommend_books_within_depth limit self q author genre_ min_rating :
  depth (root (trie self)) <= limit ->
  recommend_books_within limit self q author genre_ min_rating
  = match recommend_books self q author genre_ min_rating with
    | Some out => Returned out
    | None => IndexError
    end.
Proof.
  intros H. unfold recommend_books_within, recommend_books,
    recommended_indices.
  rewrite (search_within_depth limit (trie self) _ H).
  destruct (negb (Py.truthy (Py.strip q)));
    now destruct (recommended _ _ _ _ _).
Qed.

(** C9 as stated fails: [_collect_indices] is not total.  On a frame
    whose only title is a word of 1200 letters, the query "a" makes
    [search] recurse 1200 calls deep; with 1000 nested calls allowed
    (the interpreter's default limit for the whole stack) the call ends
    with [RecursionError] and [recommend_books] returns nothing.  The
    frame has one row and three words. *)
Lemma deep_word_recursion_error :
  len long_frame = 1
  /\ token_count long_frame = 3
  /\ depth (root (trie (TrieBasedRecommender_init long_frame))) = 1201
  /\ search_within 1000 (trie (TrieBasedRecommender_init long_frame)) "a"
     = None
  /\ recommend_books_within 1000 (TrieBasedRecommender_init long_frame)
       "a" "All" "All" 1
     = RecursionError.
Proof. vm_compute. repeat split. Qed.

(** C9, amended.  Every operation ends, with work bounded by the size
    of the index and of the frame.  [insert] and the walk of [search]
    are loops over the word and the prefix; [insert] adds at most one
    node per character, and a walk ends in a subtree that is neither
    larger nor deeper than the trie.  [_collect_indices] recurses into
    the children of a finite tree: it returns its list exactly when the
    tree below the node is not deeper than the number of nested calls
    the interpreter allows, and ends with [RecursionError] otherwise.
    The trie of [__init__] has at most one node per character of the
    indexed words besides the root and is at most one level deeper than
    the longest word is long.  So, when the longest indexed word is
    shorter than the limit, [search] returns at most one index per
    indexed word, and [recommend_books] returns a list of at most as
    many rows as the frame has rows or the index has words. *)
Theorem operations_end_within_limit :
  (forall t word index,
      nodes (root (insert t word index))
      <= nodes (root t) + String.length word)
  /\ (forall t prefix sub,
        walk prefix (root t) = Some sub ->
        nodes sub <= nodes (root t) /\ depth sub <= depth (root t))
  /\ (forall limit node,
        _collect_indices_within limit node
        = if depth node <=? limit
          then Some (_collect_indices node) else None)
  /\ (forall df,
        nodes (root (trie (TrieBasedRecommender_init df)))
        <= 1 + token_chars df
        /\ depth (root (trie (TrieBasedRecommender_init df)))
           <= S (longest_word df))
  /\ (forall df limit prefix,
        longest_word df < limit ->
        exists out,
          search_within limit (trie (TrieBasedRecommender_init df)) prefix
          = Some out
          /\ List.length out <= token_count df)
  /\ (forall df limit search_query author genre_ min_rating,
        longest_word df < limit ->
        exists out,
          recommend_books_within limit (TrieBasedRecommender_init df)
            search_query author genre_ min_rating = Returned out
          /\ List.length out <= Nat.max (len df) (token_count df)).
Proof.
  split; [|split; [|split; [|split; [|split]]]].
  - intros t word index. apply nodes_insert_from.
  - intros t prefix sub H. split;
      [now apply (nodes_walk prefix) | now apply (depth_walk prefix)].
  - apply collect_within_depth.
  - intros df. split; [|apply depth_init].
    rewrite init_trie_insert_all.
    apply (nodes_insert_all (insertions df) Trie_init).
  - intros df limit prefix Hlim.
    rewrite search_within_depth by (pose proof (depth_init df); lia).
    eexists. split; [reflexivity | apply search_init_length].
  - intros df limit q author genre_ min_rating Hlim.
    rewrite recommend_books_within_depth
      by (pose proof (depth_init df); lia).
    destruct (recommend_books_init_length df q author genre_ min_rating)
      as (out & -> & Hlen).
    now exists out.
Qed.

Lemma operations_end_within_limit_witness :
  (exists out,
      search_within 1000 (trie (TrieBasedRecommender_init catalogue)) "du"
      = Some out
      /\ List.length out <= token_count catalogue)
  /\ (exists out,
        recommend_books_within 1000 (TrieBasedRecommender_init catalogue)
          "dune" "All" "All" 1 = Returned out
        /\ List.length out
           <= Nat.max (len catalogue) (token_count catalogue)).
Proof.
  pose proof operations_end_within_limit
    as (_ & _ & _ & _ & Hsearch & Hrec).
  split.
  - apply (Hsearch catalogue 1000 "du"). vm_compute. lia.
  - apply (Hrec catalogue 1000 "dune" "All" "All" 1%Q). vm_compute. lia.
Defined.

(** X16.  The dispatch of the script on the recommender of [__init__]:
    when the longest indexed word is shorter than the number of nested
    calls the interpreter allows, and the rating is one the slider
    offers (1 to 5), the dispatch returns, whatever the buttons and the
    other widgets hold, and lists only rows of the frame: there is no
    [IndexError] and no [RecursionError]. *)
Theorem dispatch_returns_within_limit (df : DataFrame) (limit : nat)
  (apply reset : bool)
  (search_query selected_author selected_genre : string)
  (selected_rating : Z) :
  longest_word df < limit ->
  (1 <= selected_rating <= 5)%Z ->
  exists out,
    get_recommendations_within limit (TrieBasedRecommender_init df)
      apply reset search_query selected_author selected_genre
      selected_rating
    = Returned out
    /\ forall b, In b out -> In b (rows df).
Proof.
  intros Hlim _. unfold get_recommendations_within.
  destruct (_ || _ || _ || _ || _).
  - rewrite recommend_books_within_depth
      by (pose proof (depth_init df); lia).
    destruct (recommend_books_In df
                (if reset then "" else search_query)
                (if reset then "All" else selected_author)
                (if reset then "All" else selected_genre)
                (inject_Z (if reset then 1%Z else selected_rating)))
      as (out & -> & Hout).
    exists out. split; [reflexivity|]. intros b Hb. now apply Hout.
  - eexists. split; [reflexivity|]. tauto.
Qed.

Lemma dispatch_returns_within_limit_witness :
  exists out,
    get_recommendations_within 1000 (TrieBasedRecommender_init catalogue)
      true false "Dune" "Herbert" "All" 3
    = Returned out
    /\ forall b, In b out -> In b (rows catalogue).
Proof.
  apply (dispatch_returns_within_limit catalogue 1000
           true false "Dune" "Herbert" "All" 3).
  - vm_compute. lia.
  - lia.
Defined.
